(** * Surface extraction (hy3dgen/shapegen/models/autoencoders/surface_extractors.py)

    A shallow embedding of the surface extractors: the bounds resolver
    [_compute_box_stat], [center_vertices], the Classic-MC and DMC [run]
    methods and the batch driver [SurfaceExtractor.__call__].

    Conventions of the embedding.
    - Floating-point numbers are exact rationals ([Qc]); rounding, infinities
      and NaN are not modelled, and the float32 casts are an abstract map
      [to_float32].  Division by zero is [Qc]'s (the result is 0) where NumPy
      gives inf/nan, so statements that divide assume a non-zero divisor.
    - A (V,3) vertex array is a [list vec3]; an (F,k) face array is a list of
      rows [list Z]; a 1-D NumPy array is a [list Qc].
    - A Python call that may raise returns a [result]; the exceptions are
      Python's built-in classes with their inheritance.
    - Mutable attributes of an extractor instance are a record threaded
      through the calls; printed/logged output is a list of [event]s.
    - The external kernels ([skimage.measure.marching_cubes], the [diso]
      backend and its import) are parameters.

    The two validation scripts are embedded in [Module Script]: text is a
    sequence of code points, the files of the working tree are a map from
    path to text, the Python parser is a parameter, and a script computation
    returns the lines it prints with its value or its uncaught exception. *)

From Stdlib Require Import ZArith QArith Qcanon List Bool Lia String Ascii.
From stdpp Require Import base option list gmap strings pretty.
Import ListNotations.

Local Open Scope Z_scope.
Local Open Scope Qc_scope.
Local Open Scope string_scope.
Local Open Scope list_scope.

(** ** Python exceptions *)

Module Py.

(** The built-in exception classes the extractors can meet, with the base
    class of each (the built-in hierarchy of the Python documentation). *)
Inductive exn_class : Set :=
  | BaseException | Exception
  | KeyboardInterrupt | SystemExit | GeneratorExit
  | ArithmeticError | ZeroDivisionError | OverflowError
  | AssertionError | AttributeError
  | ImportError | ModuleNotFoundError
  | LookupError | IndexError | KeyError
  | MemoryError | NameError | OSError
  | RuntimeError | NotImplementedError | RecursionError
  | TypeError | ValueError | UnicodeError
  | Warning | UserWarning.

Definition base (c : exn_class) : option exn_class :=
  match c with
  | BaseException => None
  | Exception | KeyboardInterrupt | SystemExit | GeneratorExit => Some BaseException
  | ZeroDivisionError | OverflowError => Some ArithmeticError
  | ModuleNotFoundError => Some ImportError
  | IndexError | KeyError => Some LookupError
  | NotImplementedError | RecursionError => Some RuntimeError
  | UnicodeError => Some ValueError
  | UserWarning => Some Warning
  | ArithmeticError | AssertionError | AttributeError | ImportError
  | LookupError | MemoryError | NameError | OSError | RuntimeError
  | TypeError | ValueError | Warning => Some Exception
  end.

Definition class_eqb (c d : exn_class) : bool :=
  match c, d with
  | BaseException, BaseException | Exception, Exception
  | KeyboardInterrupt, KeyboardInterrupt | SystemExit, SystemExit
  | GeneratorExit, GeneratorExit | ArithmeticError, ArithmeticError
  | ZeroDivisionError, ZeroDivisionError | OverflowError, OverflowError
  | AssertionError, AssertionError | AttributeError, AttributeError
  | ImportError, ImportError | ModuleNotFoundError, ModuleNotFoundError
  | LookupError, LookupError | IndexError, IndexError | KeyError, KeyError
  | MemoryError, MemoryError | NameError, NameError | OSError, OSError
  | RuntimeError, RuntimeError | NotImplementedError, NotImplementedError
  | RecursionError, RecursionError | TypeError, TypeError
  | ValueError, ValueError | UnicodeError, UnicodeError
  | Warning, Warning | UserWarning, UserWarning => true
  | _, _ => false
  end.

(** [issubclass c d]: [d] is [c] or one of its ancestors.  The hierarchy
    above is three levels deep, so four steps reach the root. *)
Fixpoint issubclass_fuel (n : nat) (c d : exn_class) : bool :=
  class_eqb c d ||
  match n with
  | O => false
  | S n' => match base c with
            | Some b => issubclass_fuel n' b d
            | None => false
            end
  end.

Definition issubclass : exn_class -> exn_class -> bool := issubclass_fuel 4.

Definition class_name (c : exn_class) : string :=
  match c with
  | BaseException => "BaseException" | Exception => "Exception"
  | KeyboardInterrupt => "KeyboardInterrupt" | SystemExit => "SystemExit"
  | GeneratorExit => "GeneratorExit" | ArithmeticError => "ArithmeticError"
  | ZeroDivisionError => "ZeroDivisionError" | OverflowError => "OverflowError"
  | AssertionError => "AssertionError" | AttributeError => "AttributeError"
  | ImportError => "ImportError" | ModuleNotFoundError => "ModuleNotFoundError"
  | LookupError => "LookupError" | IndexError => "IndexError"
  | KeyError => "KeyError" | MemoryError => "MemoryError"
  | NameError => "NameError" | OSError => "OSError"
  | RuntimeError => "RuntimeError" | NotImplementedError => "NotImplementedError"
  | RecursionError => "RecursionError" | TypeError => "TypeError"
  | ValueError => "ValueError" | UnicodeError => "UnicodeError"
  | Warning => "Warning" | UserWarning => "UserWarning"
  end.

(** A raised exception: its class and its message ([str(e)]). *)
Record exn : Set := Exn { exn_cls : exn_class; exn_msg : string }.

(** [isinstance(e, c)]. *)
Definition isinstance (e : exn) (c : exn_class) : bool := issubclass (exn_cls e) c.

(** The outcome of a call: a value, or a raised exception. *)
Inductive result (A : Type) : Type :=
  | Ok (a : A)
  | Raise (e : exn).
Arguments Ok {A} a.
Arguments Raise {A} e.

#[global] Instance result_ret : MRet result := fun _ a => Ok a.
#[global] Instance result_bind : MBind result := fun _ _ f m =>
  match m with
  | Ok a => f a
  | Raise e => Raise e
  end.

Definition raise {A} (c : exn_class) (msg : string) : result A := Raise (Exn c msg).

End Py.
Import Py.

(** ** Data model *)

(** A keyword argument value, as far as the extractors inspect it. *)
Inductive pyval : Type :=
  | VNone
  | VInt (n : Z)
  | VFloat (x : Qc)
  | VSeq (l : list Qc).

(** [**kwargs]: keyword names to values. *)
Abbreviation kwargs := (gmap string pyval).

Record vec3 : Type := V3 { vx : Qc; vy : Qc; vz : Qc }.

Abbreviation face := (list Z).

Inductive device : Set := CPU | CUDA (index : nat).

(** A torch tensor of rank 3 (one scalar field) and the device it lives on. *)
Record tensor : Type := Tensor { t_device : device; t_data : list (list (list Qc)) }.

(** A batch: a rank-4 tensor, [grid_logits.shape[0]] fields stacked. *)
Record batch : Type := Batch { b_device : device; b_items : list (list (list (list Qc))) }.

(** class Latent2MeshOutput *)
Record Latent2MeshOutput : Type :=
  MkLatent2MeshOutput { mesh_v : list vec3; mesh_f : list face }.

(** What a [run] method hands back: the pair [(vertices, faces)], or, for the
    base class, a class object. *)
Inductive pyret : Type :=
  | RTuple2 (vertices : list vec3) (faces : list face)
  | RClass (c : exn_class).

(** Output other than the return value. *)
Inductive event : Type :=
  | EvProbe (d : device)         (* from diso import DiffDMC; DiffDMC(...).to(device) *)
  | EvWarn (category : exn_class) (msg : string)   (* warnings.warn *)
  | EvLogDebug (msg : string)    (* logger.debug *)
  | EvTraceback (e : exn).       (* traceback.print_exc() *)

(** ** Elementwise arithmetic *)

Definition Qcmin (x y : Qc) : Qc := if Qclt_le_dec y x then y else x.
Definition Qcmax (x y : Qc) : Qc := if Qclt_le_dec x y then y else x.

Definition half : Qc := Q2Qc (1 # 2).

Definition vmap2 (f : Qc -> Qc -> Qc) (a b : vec3) : vec3 :=
  V3 (f (vx a) (vx b)) (f (vy a) (vy b)) (f (vz a) (vz b)).

Definition vmap (f : Qc -> Qc) (a : vec3) : vec3 := V3 (f (vx a)) (f (vy a)) (f (vz a)).

Definition vadd : vec3 -> vec3 -> vec3 := vmap2 Qcplus.
Definition vsub : vec3 -> vec3 -> vec3 := vmap2 Qcminus.
Definition vmul : vec3 -> vec3 -> vec3 := vmap2 Qcmult.
Definition vdiv : vec3 -> vec3 -> vec3 := vmap2 Qcdiv.
Definition vmin : vec3 -> vec3 -> vec3 := vmap2 Qcmin.
Definition vmax : vec3 -> vec3 -> vec3 := vmap2 Qcmax.

Definition Z2Qc (n : Z) : Qc := Q2Qc (inject_Z n).

(** [t.min(dim=0)[0]] and [t.max(dim=0)[0]] of a (V,3) tensor: the reduction
    over an empty dimension raises. *)
Definition min_dim0 (vertices : list vec3) : result vec3 :=
  match vertices with
  | [] => raise IndexError "min(): Expected reduction dim 0 to have non-zero size."
  | v :: vs => Ok (foldr vmin v vs)
  end.

Definition max_dim0 (vertices : list vec3) : result vec3 :=
  match vertices with
  | [] => raise IndexError "max(): Expected reduction dim 0 to have non-zero size."
  | v :: vs => Ok (foldr vmax v vs)
  end.

(** def center_vertices(vertices) *)
Definition center_vertices (vertices : list vec3) : result (list vec3) :=
  vert_min ← min_dim0 vertices;
  vert_max ← max_dim0 vertices;
  let vert_center := vmap (Qcmult half) (vadd vert_min vert_max) in
  Ok (map (fun v => vsub v vert_center) vertices).

(** ** SurfaceExtractor._compute_box_stat *)

(** [bounds[i:j]] for [0 <= i <= j]: only sequences can be sliced. *)
Definition py_slice (bounds : pyval) (i j : nat) : result (list Qc) :=
  match bounds with
  | VSeq l => Ok (take (j - i) (drop i l))
  | VNone => raise TypeError "'NoneType' object is not subscriptable"
  | VInt _ => raise TypeError "'int' object is not subscriptable"
  | VFloat _ => raise TypeError "'float' object is not subscriptable"
  end.

(** NumPy's binary operators on two 1-D arrays: equal lengths go elementwise,
    a length-1 operand is broadcast, anything else is a shape error. *)
Definition np_binop (f : Qc -> Qc -> Qc) (a b : list Qc) : result (list Qc) :=
  if Nat.eqb (length a) (length b) then Ok (zip_with f a b)
  else match a, b with
       | [x], _ => Ok (map (f x) b)
       | _, [y] => Ok (map (fun x => f x y) a)
       | _, _ => raise ValueError "operands could not be broadcast together"
       end.

(** [int(x)]: truncation towards zero for a float. *)
Definition py_int (x : pyval) : result Z :=
  match x with
  | VInt n => Ok n
  | VFloat q => Ok (Z.quot (Qnum (this q)) (Zpos (Qden (this q))))
  | VSeq _ => raise TypeError "int() argument must be a string, a bytes-like object or a real number, not 'list'"
  | VNone => raise TypeError "int() argument must be a string, a bytes-like object or a real number, not 'NoneType'"
  end.

Definition _compute_box_stat (bounds octree_resolution : pyval)
  : result (list Z * list Qc * list Qc) :=
  let bounds :=
    match bounds with            (* if isinstance(bounds, float) *)
    | VFloat b => VSeq [- b; - b; - b; b; b; b]
    | _ => bounds
    end in
  bbox_min ← py_slice bounds 0 3;
  bbox_max ← py_slice bounds 3 6;
  bbox_size ← np_binop Qcminus bbox_max bbox_min;
  r ← py_int octree_resolution;
  let grid_size := [r + 1; r + 1; r + 1]%Z in
  Ok (grid_size, bbox_min, bbox_size).

(** ** Keyword binding of a Python call *)

(** A keyword that names a parameter already filled positionally. *)
Fixpoint check_positional (positional : list string) (kw : kwargs) : result unit :=
  match positional with
  | [] => Ok tt
  | k :: rest =>
      match kw !! k with
      | Some _ => raise TypeError ("run() got multiple values for argument '" ++ k ++ "'")
      | None => check_positional rest kw
      end
  end.

(** A required keyword-only parameter. *)
Definition keyword_only (name : string) (kw : kwargs) : result pyval :=
  match kw !! name with
  | Some v => Ok v
  | None => raise TypeError ("run() missing required keyword-only argument: '" ++ name ++ "'")
  end.

(** ** The external kernels *)

Abbreviation grid := (list (list (list Qc))).

(** [skimage.measure.marching_cubes(volume, level, method="lewiner")],
    restricted to the vertices and faces it returns, and the rounding of a
    number to float32. *)
Class Kernels : Type := {
  marching_cubes : grid -> pyval -> result (list vec3 * list face);
  to_float32 : Qc -> Qc
}.

(** A constructed backend, [DiffDMC(dtype=torch.float32).to(device)], called
    as [dmc(sdf, deform=None, return_quads=False, normalize=True)]. *)
Abbreviation handle := (grid -> result (list vec3 * list face)).

(** The interpreter's surroundings at the time of one call: what
    [from diso import DiffDMC; DiffDMC(dtype=torch.float32).to(device)]
    does there. *)
Abbreviation env := (device -> result handle).

Section Model.
Context `{K : Kernels}.

(** ** SurfaceExtractor.run (base class) *)

Definition SurfaceExtractor_run (kw : kwargs) : result pyret :=
  _ ← check_positional ["self"] kw;
  Ok (RClass NotImplementedError).

(** ** MCSurfaceExtractor.run *)

(** A 1-D array broadcast against the rows of a (V,3) array. *)
Definition as_row3 (a : list Qc) : result vec3 :=
  match a with
  | [x] => Ok (V3 x x x)
  | [x; y; z] => Ok (V3 x y z)
  | _ => raise ValueError "operands could not be broadcast together"
  end.

Definition MC_run (grid_logit : tensor) (kw : kwargs) : result pyret :=
  _ ← check_positional ["self"; "grid_logit"] kw;
  mc_level ← keyword_only "mc_level" kw;
  bounds ← keyword_only "bounds" kw;
  octree_resolution ← keyword_only "octree_resolution" kw;
  '(vertices, faces) ← marching_cubes (t_data grid_logit) mc_level;
  '(grid_size, bbox_min, bbox_size) ← _compute_box_stat bounds octree_resolution;
  grid_size ← as_row3 (map Z2Qc grid_size);
  let vertices := map (fun v => vdiv v grid_size) vertices in
  bbox_size ← as_row3 bbox_size;
  let vertices := map (fun v => vmul v bbox_size) vertices in
  bbox_min ← as_row3 bbox_min;
  let vertices := map (fun v => vadd v bbox_min) vertices in
  Ok (RTuple2 vertices faces).

(** ** DMCSurfaceExtractor *)

Inductive MCSurfaceExtractor : Set := MkMCSurfaceExtractor.

(** The instance attributes; [dmc = None] is "no attribute [dmc]". *)
Record DMCSurfaceExtractor : Type := MkDMC {
  dmc : option handle;
  _use_fallback : bool;
  _fallback_extractor : option MCSurfaceExtractor
}.

(** DMCSurfaceExtractor.__init__ *)
Definition DMC_init : DMCSurfaceExtractor :=
  {| dmc := None; _use_fallback := false; _fallback_extractor := None |}.

Definition set_fallback (self : DMCSurfaceExtractor) : DMCSurfaceExtractor :=
  {| dmc := dmc self; _use_fallback := true;
     _fallback_extractor := Some MkMCSurfaceExtractor |}.

Definition set_dmc (self : DMCSurfaceExtractor) (h : handle) : DMCSurfaceExtractor :=
  {| dmc := Some h; _use_fallback := _use_fallback self;
     _fallback_extractor := _fallback_extractor self |}.

Definition import_warning : string :=
  "diso module not found. Falling back to standard marching cubes. For better quality, install diso via `pip install diso`.".

Definition init_warning (e : exn) : string :=
  "Failed to initialize diso (" ++ class_name (exn_cls e) ++ ": " ++ exn_msg e
  ++ "). Falling back to standard marching cubes.".

(** except (RuntimeError, ValueError, TypeError, AttributeError) *)
Definition init_recoverable (e : exn) : bool :=
  isinstance e RuntimeError || isinstance e ValueError
  || isinstance e TypeError || isinstance e AttributeError.

(** Lines 91-115: the probe, guarded by the two attributes. *)
Definition DMC_probe (w : env) (self : DMCSurfaceExtractor) (d : device)
  : DMCSurfaceExtractor * list event * result unit :=
  if negb (bool_decide (is_Some (dmc self))) && negb (_use_fallback self) then
    match w d with
    | Ok h => (set_dmc self h, [EvProbe d], Ok tt)
    | Raise e =>
        if isinstance e ImportError then
          (set_fallback self, [EvProbe d; EvWarn UserWarning import_warning], Ok tt)
        else if init_recoverable e then
          (set_fallback self,
           [EvProbe d; EvWarn UserWarning (init_warning e);
            EvLogDebug ("diso initialization error: " ++ exn_msg e)], Ok tt)
        else (self, [EvProbe d], Raise e)
    end
  else (self, [], Ok tt).

(** [-grid_logit / octree_resolution] *)
Definition neg_div (g : grid) (octree_resolution : pyval) : result grid :=
  match octree_resolution with
  | VInt n => Ok (map (map (map (fun x => (- x) / Z2Qc n))) g)
  | VFloat q => Ok (map (map (map (fun x => (- x) / q))) g)
  | VSeq _ => raise TypeError "unsupported operand type(s) for /: 'Tensor' and 'list'"
  | VNone => raise TypeError "unsupported operand type(s) for /: 'Tensor' and 'NoneType'"
  end.

(** Lines 118-119: the fallback path. *)
Definition DMC_fallback (self : DMCSurfaceExtractor) (grid_logit : tensor)
    (octree_resolution : pyval) (kw : kwargs) : result pyret :=
  match _fallback_extractor self with
  | Some _ => MC_run grid_logit (<["octree_resolution" := octree_resolution]> kw)
  | None => raise AttributeError
              "'DMCSurfaceExtractor' object has no attribute '_fallback_extractor'"
  end.

(** Lines 122-128: the primary path, on the stored backend handle. *)
Definition DMC_primary (self : DMCSurfaceExtractor) (grid_logit : tensor)
    (octree_resolution : pyval) : result pyret :=
  sdf ← neg_div (t_data grid_logit) octree_resolution;
  let sdf := map (map (map to_float32)) sdf in
  match dmc self with
  | None => raise AttributeError "'DMCSurfaceExtractor' object has no attribute 'dmc'"
  | Some h =>
      '(verts, faces) ← h sdf;
      verts ← center_vertices verts;
      let vertices := verts in
      let faces := map (@rev Z) faces in
      Ok (RTuple2 vertices faces)
  end.

(** DMCSurfaceExtractor.run(grid_logit, *, octree_resolution, **kwargs) *)
Definition DMC_run (w : env) (self : DMCSurfaceExtractor) (grid_logit : tensor)
    (kw : kwargs) : DMCSurfaceExtractor * list event * result pyret :=
  match (_ ← check_positional ["self"; "grid_logit"] kw;
         keyword_only "octree_resolution" kw) with
  | Raise e => (self, [], Raise e)
  | Ok octree_resolution =>
      let kwargs := delete "octree_resolution" kw in
      let device := t_device grid_logit in
      let '(self, evs, probed) := DMC_probe w self device in
      match probed with
      | Raise e => (self, evs, Raise e)
      | Ok _ =>
          if _use_fallback self
          then (self, evs, DMC_fallback self grid_logit octree_resolution kwargs)
          else (self, evs, DMC_primary self grid_logit octree_resolution)
      end
  end.

End Model.

(** ** The batch driver, SurfaceExtractor.__call__ *)

(** An extractor class: the type of its instances and its [run] method, which
    may update the instance and print before it returns or raises. *)
Class Extractor (S : Type) : Type :=
  run : env -> S -> tensor -> kwargs -> S * list event * result pyret.

Inductive SurfaceExtractor : Set := MkSurfaceExtractor.

#[global] Instance SurfaceExtractor_class `{K : Kernels} : Extractor SurfaceExtractor :=
  fun _ self _ kw => (self, [], SurfaceExtractor_run kw).

#[global] Instance MC_class `{K : Kernels} : Extractor MCSurfaceExtractor :=
  fun _ self grid_logit kw => (self, [], MC_run grid_logit kw).

#[global] Instance DMC_class `{K : Kernels} : Extractor DMCSurfaceExtractor := DMC_run.

(** [vertices, faces = ...]: only the pair unpacks; a class object is not
    iterable. *)
Definition unpack_error : exn := Exn TypeError "cannot unpack non-iterable type object".

Definition unpack2 (r : pyret) : result (list vec3 * list face) :=
  match r with
  | RTuple2 vertices faces => Ok (vertices, faces)
  | RClass _ => Raise unpack_error
  end.

Section Driver.
Context `{K : Kernels} {S : Type} `{E : !Extractor S}.

(** Lines 57-60: the body of the [try] for one item. *)
Definition try_body (w : env) (self : S) (grid_logit : tensor) (kw : kwargs)
  : S * list event * result Latent2MeshOutput :=
  let '(self, evs, r) := run w self grid_logit kw in
  (self, evs,
   ret ← r;
   '(vertices, faces) ← unpack2 ret;
   let vertices := map (vmap to_float32) vertices in   (* astype(np.float32) *)
   let faces := faces in                               (* np.ascontiguousarray *)
   Ok (MkLatent2MeshOutput vertices faces)).

(** The [for] loop from item [i] on; [world i] is the surroundings in which
    item [i] is processed.  [except Exception] does not catch the
    exceptions that derive from [BaseException] only. *)
Fixpoint call_loop (world : nat -> env) (d : device) (kw : kwargs) (i : nat)
    (items : list grid) (self : S) (outputs : list (option Latent2MeshOutput))
  : S * list event * result (list (option Latent2MeshOutput)) :=
  match items with
  | [] => (self, [], Ok outputs)
  | g :: rest =>
      let '(self, evs, r) := try_body (world i) self (Tensor d g) kw in
      match r with
      | Ok m =>
          let '(self, evs', out) :=
            call_loop world d kw (Datatypes.S i) rest self (outputs ++ [Some m]) in
          (self, evs ++ evs', out)
      | Raise e =>
          if isinstance e Exception then
            let '(self, evs', out) :=
              call_loop world d kw (Datatypes.S i) rest self (outputs ++ [None]) in
            (self, evs ++ EvTraceback e :: evs', out)
          else (self, evs, Raise e)
      end
  end.

Definition __call__ (world : nat -> env) (self : S) (grid_logits : batch) (kw : kwargs)
  : S * list event * result (list (option Latent2MeshOutput)) :=
  call_loop world (b_device grid_logits) kw 0 (b_items grid_logits) self [].

(** What the [try] body does for the item at position [k] of [items], the
    first of which is item number [i]: it runs on the instance as the items
    before it have left it. *)
Fixpoint outcome_from (world : nat -> env) (d : device) (kw : kwargs) (i : nat)
    (items : list grid) (self : S) (k : nat)
  : option (list event * result Latent2MeshOutput) :=
  match items with
  | [] => None
  | g :: rest =>
      let '(self, evs, r) := try_body (world i) self (Tensor d g) kw in
      match k with
      | O => Some (evs, r)
      | Datatypes.S k' => outcome_from world d kw (Datatypes.S i) rest self k'
      end
  end.

Definition outcome_at (world : nat -> env) (self : S) (grid_logits : batch)
    (kw : kwargs) (k : nat) : option (list event * result Latent2MeshOutput) :=
  outcome_from world (b_device grid_logits) kw 0 (b_items grid_logits) self k.

End Driver.

(** SurfaceExtractors = {'mc': ..., 'dmc': ...} *)
Inductive extractor_class : Set := MCSurfaceExtractor_cls | DMCSurfaceExtractor_cls.

Definition SurfaceExtractors : gmap string extractor_class :=
  {[ "mc" := MCSurfaceExtractor_cls; "dmc" := DMCSurfaceExtractor_cls ]}.

(** ** Vocabulary of the statements *)

Definition vzero : vec3 := V3 0 0 0.

(** The centre of the bounding box of the non-empty vertex set [v :: vs]. *)
Definition bbox_center (v : vec3) (vs : list vec3) : vec3 :=
  vmap (Qcmult half) (vadd (foldr vmin v vs) (foldr vmax v vs)).

(** The keywords of a call [run(grid_logit, **kw)] bind to the signature of
    the DMC [run], with [octree_resolution] bound to [r]. *)
Definition binds_octree (kw : kwargs) (r : pyval) : Prop :=
  kw !! "self" = None /\ kw !! "grid_logit" = None
  /\ kw !! "octree_resolution" = Some r.

(** The instance has made its choice: it holds a backend handle or the
    fallback flag is set (with the fallback extractor in place). *)
Definition settled (self : DMCSurfaceExtractor) : Prop :=
  (is_Some (dmc self) /\ _use_fallback self = false)
  \/ (_use_fallback self = true /\ is_Some (_fallback_extractor self)).

(** A probe was made during these events. *)
Definition is_probe (ev : event) : bool :=
  match ev with EvProbe _ => true | _ => false end.

Definition probes (evs : list event) : nat := length (List.filter is_probe evs).

(** What a settled instance returns for one call: the binding of the
    keywords, then the path the instance is on.  The surroundings do not
    occur in it. *)
Definition settled_path `{K : Kernels} (self : DMCSurfaceExtractor)
    (grid_logit : tensor) (kw : kwargs) : result pyret :=
  match (_ ← check_positional ["self"; "grid_logit"] kw;
         keyword_only "octree_resolution" kw) with
  | Raise e => Raise e
  | Ok r =>
      if _use_fallback self
      then DMC_fallback self grid_logit r (delete "octree_resolution" kw)
      else DMC_primary self grid_logit r
  end.

(** Successive calls of [run] on one instance, each in its own
    surroundings. *)
Fixpoint DMC_calls `{K : Kernels} (self : DMCSurfaceExtractor)
    (calls : list (env * tensor * kwargs))
  : DMCSurfaceExtractor * list event * list (result pyret) :=
  match calls with
  | [] => (self, [], [])
  | (w, grid_logit, kw) :: rest =>
      let '(self, evs, r) := DMC_run w self grid_logit kw in
      let '(self, evs', rs) := DMC_calls self rest in
      (self, evs ++ evs', r :: rs)
  end.

(** ** Sample data *)

Definition qc (a : Z) (b : positive) : Qc := Q2Qc (a # b).

(** A marching-cubes kernel that finds one triangle in a non-empty volume and
    no surface in an empty one. *)
Definition sample_kernels : Kernels := {|
  marching_cubes := fun g _ =>
    match g with
    | [] => raise ValueError "Surface level must be within volume data range."
    | _ => Ok ([V3 (qc 0 1) (qc 0 1) (qc 0 1); V3 (qc 1 1) (qc 0 1) (qc 0 1);
                V3 (qc 1 1) (qc 1 1) (qc 1 1)], [[0; 1; 2]%Z])
    end;
  to_float32 := fun x => x
|}.

(** A kernel interrupted from the keyboard. *)
Definition interrupted_kernels : Kernels := {|
  marching_cubes := fun _ _ => raise KeyboardInterrupt "";
  to_float32 := fun x => x
|}.

(** A backend whose output is offset from the origin. *)
Definition sample_dmc : handle := fun _ =>
  Ok ([V3 (qc 1 1) (qc 2 1) (qc 3 1); V3 (qc 3 1) (qc 4 1) (qc 5 1);
       V3 (qc 2 1) (qc 2 1) (qc 2 1)], [[0; 1; 2]%Z; [2; 1; 3]%Z]).

Definition diso_present : env := fun _ => Ok sample_dmc.
Definition diso_missing : env := fun _ => raise ModuleNotFoundError "No module named 'diso'".
Definition diso_broken : env := fun _ => raise RuntimeError "CUDA error: no kernel image is available".
Definition diso_os_error : env := fun _ => raise OSError "libcudart.so: cannot open shared object file".

Definition sample_grid : grid := [[[qc 1 1; qc (-1) 1]]].
Definition sample_tensor : tensor := Tensor CPU sample_grid.

Definition empty_grid : grid := [].

Definition sample_vertices : list vec3 :=
  [V3 (qc 1 1) (qc 2 1) (qc 3 1); V3 (qc 3 1) (qc 4 1) (qc 5 1);
   V3 (qc 2 1) (qc 2 1) (qc 2 1)].

(** A DMC extractor holding the sample backend, and one that fell back. *)
Definition backend_instance : DMCSurfaceExtractor := set_dmc DMC_init sample_dmc.
Definition fallback_instance : DMCSurfaceExtractor := set_fallback DMC_init.

Definition sample_kwargs : kwargs :=
  {[ "mc_level" := VFloat (qc 0 1); "bounds" := VFloat (qc 101 100);
     "octree_resolution" := VInt 1 ]}.

Definition wide_kwargs : kwargs := <["bounds" := VFloat (qc 2 1)]> sample_kwargs.

(** A batch whose middle item has no surface. *)
Definition mixed_batch : batch := Batch CPU [sample_grid; empty_grid; sample_grid].

Definition sample_sdf : grid :=
  map (map (map (fun x => (- x) / Z2Qc 1))) sample_grid.


(** ** Further vocabulary *)

(** A raw vertex inside the grid of [R] lines per axis, and a vertex inside
    the box from [lo] to [lo + size] (upper faces excluded). *)
Definition in_grid (R : Qc) (v : vec3) : Prop :=
  (0 <= vx v /\ vx v <= R - 1) /\ (0 <= vy v /\ vy v <= R - 1)
  /\ (0 <= vz v /\ vz v <= R - 1).

Definition in_box (lo size v : vec3) : Prop :=
  (vx lo <= vx v /\ vx v < vx lo + vx size)
  /\ (vy lo <= vy v /\ vy v < vy lo + vy size)
  /\ (vz lo <= vz v /\ vz v < vz lo + vz size).

(** Every face index points at a vertex. *)
Definition valid_mesh (vertices : list vec3) (faces : list face) : Prop :=
  Forall (Forall (fun i => (0 <= i < Z.of_nat (length vertices))%Z)) faces.

Definition valid_kernel (f : grid -> result (list vec3 * list face)) : Prop :=
  forall g vertices faces, f g = Ok (vertices, faces) -> valid_mesh vertices faces.

(** An exception of the probe that neither [except] clause catches, and a
    probe outcome that settles the instance. *)
Definition unclassified (e : exn) : Prop :=
  isinstance e ImportError = false /\ init_recoverable e = false.

Definition classified (r : result handle) : Prop :=
  match r with
  | Ok _ => True
  | Raise e => isinstance e ImportError || init_recoverable e = true
  end.

(** The three shapes of a DMC instance: fresh, holding a backend, fallen
    back. *)
Definition instance_ok (self : DMCSurfaceExtractor) : Prop :=
  (dmc self = None /\ _use_fallback self = false /\ _fallback_extractor self = None)
  \/ (is_Some (dmc self) /\ _use_fallback self = false
      /\ _fallback_extractor self = None)
  \/ (dmc self = None /\ _use_fallback self = true
      /\ is_Some (_fallback_extractor self)).

(** ** The validation scripts (static_validation.py, validate_optimizations.py) *)

Module Script.

Local Open Scope Z_scope.

(** Python text, a sequence of code points, both for the file contents and
    for what is printed. *)
Abbreviation text := (list N).

(** An ASCII literal as text. *)
Definition cp (s : string) : text := map N_of_ascii (list_ascii_of_string s).

Definition check_mark : text := [10003%N].    (* U+2713 *)
Definition cross_mark : text := [10007%N].    (* U+2717 *)
Definition warning_sign : text := [9888%N].   (* U+26A0 *)
Definition nl : text := [10%N].

(** [str(n)] for a count. *)
Definition str_nat (n : nat) : text := cp (pretty n).

(** [s * n] *)
Definition str_repeat (s : text) (n : nat) : text := concat (replicate n s).

(** ** The regular expressions the script uses *)

(** [s] starts with the literal [needle]. *)
Fixpoint starts_with (needle s : text) : bool :=
  match needle, s with
  | [], _ => true
  | _ :: _, [] => false
  | a :: needle', b :: s' => N.eqb a b && starts_with needle' s'
  end.

(** [needle in s], and [re.search] of a literal: some suffix of [s] starts
    with [needle]. *)
Fixpoint contains (needle s : text) : bool :=
  starts_with needle s ||
  match s with
  | [] => false
  | _ :: s' => contains needle s'
  end.

(** [len(re.findall(literal, s))] for a non-empty literal: the matches are
    taken from left to right and do not overlap; [skip] characters of the
    last match are still to be passed. *)
Fixpoint findall_count (needle : text) (skip : nat) (s : text) : nat :=
  match s with
  | [] => 0
  | _ :: s' =>
      match skip with
      | S k => findall_count needle k s'
      | O => if starts_with needle s
             then S (findall_count needle (length needle - 1) s')
             else findall_count needle 0 s'
      end
  end.

(** The characters [\s] matches in a str pattern: those for which
    [str.isspace()] holds. *)
Definition isspace (c : N) : bool :=
  ((9 <=? c) && (c <=? 13) || (28 <=? c) && (c <=? 32)
   || (c =? 133) || (c =? 160) || (c =? 5760)
   || (8192 <=? c) && (c <=? 8202)
   || (c =? 8232) || (c =? 8233) || (c =? 8239) || (c =? 8287)
   || (c =? 12288))%N.

(** The rest of [s] after a match of [\s*\(] at its start, if any. *)
Fixpoint spaces_then_paren (s : text) : bool :=
  match s with
  | [] => false
  | c :: s' => if isspace c then spaces_then_paren s' else N.eqb c 40
  end.

Fixpoint strip_prefix (needle s : text) : option text :=
  match needle, s with
  | [], _ => Some s
  | _ :: _, [] => None
  | a :: needle', b :: s' => if N.eqb a b then strip_prefix needle' s' else None
  end.

(** [re.search(rf'def {name}\s*\(', s)] for a [name] without regular
    expression metacharacters (an identifier). *)
Fixpoint search_def (name s : text) : bool :=
  match strip_prefix (cp "def " ++ name) s with
  | Some rest => spaces_then_paren rest
  | None => false
  end ||
  match s with
  | [] => false
  | _ :: s' => search_def name s'
  end.

(** ** The surroundings of the script *)

(** Exceptions the script does not catch. *)
Inductive os_error : Type :=
  | FileNotFoundError (path : text).

(** The files under the repository root, by the relative path the script
    uses, with the text [read()] returns; whether [os.chdir] to the
    repository root succeeds. *)
Record workdir : Type := Workdir {
  chdir_ok : bool;
  files : gmap text text
}.

(** [ast.parse(content)] followed by [ast.walk]: a SyntaxError with its
    message, or, for every [ast.FunctionDef] node, whether
    [ast.get_docstring] of it is non-empty.  Other failures of the parser
    are outside the model. *)
Class Parser : Type := ast_parse : text -> text + list bool.

(** A computation that prints lines and ends with a value or with an
    uncaught exception. *)
Definition io (A : Type) : Type := list text * (os_error + A).

#[global] Instance io_ret : MRet io := fun _ a => ([], inr a).
#[global] Instance io_bind : MBind io := fun _ _ f m =>
  match m with
  | (out, inl e) => (out, inl e)
  | (out, inr a) => let '(out', r) := f a in (out ++ out', r)
  end.

Definition print (line : text) : io unit := ([line], inr tt).
Definition throw {A} (e : os_error) : io A := ([], inl e).

(** [os.path.exists(path)] *)
Definition path_exists (w : workdir) (path : text) : bool :=
  bool_decide (is_Some (files w !! path)).

(** [with open(path, 'r') as f: content = f.read()] *)
Definition read_file (w : workdir) (path : text) : io text :=
  match files w !! path with
  | Some content => mret content
  | None => throw (FileNotFoundError path)
  end.

Section Checks.
Context `{P : Parser}.

Definition check_file_exists (w : workdir) (filepath : text) : io bool :=
  if path_exists w filepath
  then _ ← print (check_mark ++ cp " Found: " ++ filepath); mret true
  else _ ← print (cross_mark ++ cp " Missing: " ++ filepath); mret false.

Definition check_temp_file_cleanup (w : workdir) (filepath : text) : io bool :=
  _ ← print (nl ++ cp "Checking temp file cleanup in " ++ filepath ++ cp "...");
  content ← read_file w filepath;
  (* the matches of the try-finally pattern are computed and not used *)
  let temp_file_count := findall_count (cp "tempfile.NamedTemporaryFile") 0 content in
  let cleanup_count := findall_count (cp "os.unlink(") 0 content in
  _ ← print (cp "  Tempfile usages: " ++ str_nat temp_file_count);
  _ ← print (cp "  Cleanup calls (os.unlink): " ++ str_nat cleanup_count);
  if (4 <=? cleanup_count)%nat
  then _ ← print (check_mark ++ cp " Proper cleanup implemented"); mret true
  else _ ← print (cross_mark ++ cp " Missing cleanup (expected at least 4, found "
                  ++ str_nat cleanup_count ++ cp ")"); mret false.

Definition check_function_exists (w : workdir) (filepath function_name : text) : io bool :=
  content ← read_file w filepath;
  if search_def function_name content
  then _ ← print (check_mark ++ cp " Function '" ++ function_name ++ cp "' exists");
       mret true
  else _ ← print (cross_mark ++ cp " Function '" ++ function_name ++ cp "' not found");
       mret false.

Definition check_class_exists (w : workdir) (filepath class_name : text) : io bool :=
  content ← read_file w filepath;
  if contains (cp "class " ++ class_name) content
  then _ ← print (check_mark ++ cp " Class '" ++ class_name ++ cp "' exists"); mret true
  else _ ← print (cross_mark ++ cp " Class '" ++ class_name ++ cp "' not found");
       mret false.

Definition check_docstrings (w : workdir) (filepath : text) : io bool :=
  _ ← print (nl ++ cp "Checking docstrings in " ++ filepath ++ cp "...");
  content ← read_file w filepath;
  match ast_parse content with
  | inr docs =>
      let total_functions := length docs in
      let functions_with_docs := length (filter (fun d => d = true) docs) in
      _ ← print (cp "  Functions with docstrings: " ++ str_nat functions_with_docs
                 ++ cp "/" ++ str_nat total_functions);
      if (5 <=? functions_with_docs)%nat
      then _ ← print (check_mark ++ cp " Good docstring coverage"); mret true
      else _ ← print (warning_sign ++ cp " Limited docstring coverage"); mret true
  | inl e =>
      _ ← print (cross_mark ++ cp " Syntax error in file: " ++ e); mret false
  end.

Definition required_sections : list text :=
  [cp "Memory Leak"; cp "Performance"; cp "Optimization"; cp "Documentation"].

Definition check_optimization_report (w : workdir) : io bool :=
  _ ← print (nl ++ cp "Checking OPTIMIZATION_REPORT.md...");
  let filepath := cp "OPTIMIZATION_REPORT.md" in
  if negb (path_exists w filepath)
  then _ ← print (cross_mark ++ cp " OPTIMIZATION_REPORT.md not found"); mret false
  else
    content ← read_file w filepath;
    let found_sections :=
      length (filter (fun section => contains section content = true)
                     required_sections) in
    _ ← print (cp "  Found " ++ str_nat found_sections ++ cp "/"
               ++ str_nat (length required_sections) ++ cp " key sections");
    _ ← print (cp "  Document length: " ++ str_nat (length content) ++ cp " characters");
    if (3 <=? found_sections)%nat && (5000 <? length content)%nat
    then _ ← print (check_mark ++ cp " Comprehensive optimization report"); mret true
    else _ ← print (cross_mark ++ cp " Incomplete optimization report"); mret false.

Definition check_syntax (w : workdir) (filepath : text) : io bool :=
  _ ← print (nl ++ cp "Checking syntax of " ++ filepath ++ cp "...");
  content ← read_file w filepath;
  match ast_parse content with
  | inr _ => _ ← print (check_mark ++ cp " Valid Python syntax"); mret true
  | inl e => _ ← print (cross_mark ++ cp " Syntax error: " ++ e); mret false
  end.

(** The summary both [main] functions end with: one status line per result,
    the count, and the exit code. *)
Definition status_line (r : text * bool) : text :=
  (if r.2 then check_mark ++ cp " PASS" else cross_mark ++ cp " FAIL")
  ++ cp ": " ++ r.1.

Definition summary (title noun : text) (ready : list text)
    (results : list (text * bool)) : io Z :=
  _ ← print (nl ++ str_repeat (cp "=") 60);
  _ ← print title;
  _ ← print (str_repeat (cp "=") 60);
  let passed := length (filter (fun r => r.2 = true) results) in
  let total := length results in
  _ ← (map status_line results, inr tt);
  _ ← print (str_repeat (cp "-") 60);
  _ ← print (cp "Total: " ++ str_nat passed ++ cp "/" ++ str_nat total
             ++ cp " " ++ noun ++ cp "s passed");
  if (passed =? total)%nat
  then _ ← (ready, inr tt); mret 0
  else _ ← print (nl ++ cross_mark ++ cp " " ++ str_nat (total - passed)
                  ++ cp " " ++ noun ++ cp "(s) failed");
       mret 1.

Definition repo_root : text := cp "/home/runner/work/Hunyuan3D-2/Hunyuan3D-2".
Definition postprocessors_file : text := cp "hy3dgen/shapegen/postprocessors.py".

(** static_validation.main *)
Definition static_main (w : workdir) : io Z :=
  _ ← print (str_repeat (cp "=") 60);
  _ ← print (cp "STATIC VALIDATION FOR POSTPROCESSOR OPTIMIZATIONS");
  _ ← print (str_repeat (cp "=") 60);
  _ ← (if chdir_ok w then mret tt else throw (FileNotFoundError repo_root));
  r1 ← check_file_exists w postprocessors_file;
  r2 ← check_file_exists w (cp "OPTIMIZATION_REPORT.md");
  r3 ← check_syntax w postprocessors_file;
  r4 ← check_temp_file_cleanup w postprocessors_file;
  _ ← print (nl ++ cp "Checking new functions...");
  r5 ← check_function_exists w postprocessors_file (cp "reduce_face_trimesh");
  _ ← print (nl ++ cp "Checking classes...");
  r6 ← check_class_exists w postprocessors_file (cp "FaceReducer");
  r7 ← check_class_exists w postprocessors_file (cp "DegenerateFaceRemover");
  r8 ← check_class_exists w postprocessors_file (cp "MeshSimplifier");
  r9 ← check_docstrings w postprocessors_file;
  r10 ← check_optimization_report w;
  summary (cp "VALIDATION SUMMARY") (cp "check")
    [nl ++ check_mark ++ cp " All static validation checks passed!";
     check_mark ++ cp " Code is ready for review"]
    [(cp "File exists: postprocessors.py", r1);
     (cp "File exists: OPTIMIZATION_REPORT.md", r2);
     (cp "Python syntax", r3);
     (cp "Temp file cleanup", r4);
     (cp "reduce_face_trimesh", r5);
     (cp "FaceReducer class", r6);
     (cp "DegenerateFaceRemover class", r7);
     (cp "MeshSimplifier class", r8);
     (cp "Docstrings", r9);
     (cp "Optimization Report", r10)].

(** What the checks decide, as functions of the text they read. *)
Definition parses (src : text) : bool :=
  match ast_parse src with inr _ => true | inl _ => false end.



End Checks.

(** validate_optimizations.main, on the outcomes of its four tests (each
    test catches its own exceptions and returns a bool). *)
Definition validate_main (imports reduce_face cleanup fast_mode : io bool) : io Z :=
  _ ← print (str_repeat (cp "=") 60);
  _ ← print (cp "VALIDATION TESTS FOR POSTPROCESSOR OPTIMIZATIONS");
  _ ← print (str_repeat (cp "=") 60);
  r1 ← imports;
  r2 ← reduce_face;
  r3 ← cleanup;
  r4 ← fast_mode;
  summary (cp "TEST SUMMARY") (cp "test")
    [nl ++ check_mark ++ cp " All validation tests passed!"]
    [(cp "Imports", r1); (cp "Reduce Face Trimesh", r2);
     (cp "Temp File Cleanup", r3); (cp "FaceReducer Fast Mode", r4)].

(** The characters of a Python identifier (ASCII): the names [main] passes to
    the pattern checks are made of them, and none of them is special in a
    regular expression. *)
Definition ident_char (c : N) : bool :=
  ((48 <=? c) && (c <=? 57) || (65 <=? c) && (c <=? 90)
   || (97 <=? c) && (c <=? 122) || (c =? 95))%N.

Definition identifier (name : text) : Prop := Forall (fun c => ident_char c = true) name.

End Script.

(** ** More sample data *)

(** A backend that returns one valid triangle, and one that finds nothing. *)
Definition triangle_dmc : handle := fun _ =>
  Ok ([V3 (qc 1 1) (qc 2 1) (qc 3 1); V3 (qc 3 1) (qc 4 1) (qc 5 1);
       V3 (qc 2 1) (qc 2 1) (qc 2 1)], [[0; 1; 2]%Z]).

Definition empty_dmc : handle := fun _ => Ok ([], []).

Definition triangle_instance : DMCSurfaceExtractor := set_dmc DMC_init triangle_dmc.
Definition empty_instance : DMCSurfaceExtractor := set_dmc DMC_init empty_dmc.

Definition diso_triangle : env := fun _ => Ok triangle_dmc.

(** Keywords as a caller aiming at the DMC path alone would pass them. *)
Definition dmc_only_kwargs : kwargs := {[ "octree_resolution" := VInt 1 ]}.

Definition no_resolution_kwargs : kwargs :=
  {[ "mc_level" := VFloat (qc 0 1); "bounds" := VFloat (qc 101 100) ]}.

Definition long_bounds : list Qc :=
  [qc (-1) 1; qc (-1) 1; qc (-1) 1; qc 1 1; qc 1 1; qc 1 1; qc 7 1; qc 8 1].

Definition short_bounds_kwargs : kwargs :=
  <["bounds" := VSeq [qc (-1) 1; qc (-1) 1; qc (-1) 1; qc 1 1]]> sample_kwargs.

(** A working tree for the static validation, and a parser that accepts
    every text and finds no function in it. *)
Definition sample_source : Script.text :=
  Script.cp "class FaceReducerV2: def reduce_face_trimesh (m): os.unlink(a); os.unlink(b); os.unlink(c); os.unlink(d) class DegenerateFaceRemover class MeshSimplifier".

Definition sample_workdir : Script.workdir :=
  Script.Workdir true {[ Script.postprocessors_file := sample_source ]}.

Definition empty_workdir : Script.workdir := Script.Workdir true ∅.

Definition lenient_parser : Script.Parser := fun _ => inr [].

(** ** The exception hierarchy *)

Example module_not_found_is_import_error :
  issubclass ModuleNotFoundError ImportError = true.
Proof. reflexivity. Qed.

Example not_implemented_is_runtime_error :
  issubclass NotImplementedError RuntimeError = true.
Proof. reflexivity. Qed.

Example keyboard_interrupt_is_not_exception :
  issubclass KeyboardInterrupt Exception = false.
Proof. reflexivity. Qed.

Example os_error_is_not_recoverable :
  init_recoverable (Exn OSError "") = false
  /\ isinstance (Exn OSError "") ImportError = false
  /\ isinstance (Exn OSError "") Exception = true.
Proof. repeat split. Qed.

Lemma issubclass_refl (c : exn_class) : issubclass c c = true.
Proof. by destruct c. Qed.

Lemma issubclass_base (c : exn_class) : issubclass c BaseException = true.
Proof. by destruct c. Qed.

(** ** Rational arithmetic and bounding boxes *)

Lemma half_double (x : Qc) : half * x + half * x = x.
Proof.
  assert (H : half + half = 1) by (apply Qc_is_canon; reflexivity).
  transitivity ((half + half) * x); [ring | rewrite H; ring].
Qed.

Lemma Qclt_shift (x y c : Qc) : x - c < y - c <-> x < y.
Proof.
  rewrite (Qclt_minus_iff (x - c)), (Qclt_minus_iff x).
  replace (y - c + - (x - c)) with (y + - x) by ring. reflexivity.
Qed.

Lemma Qcmin_shift (x y c : Qc) : Qcmin (x - c) (y - c) = Qcmin x y - c.
Proof.
  unfold Qcmin.
  destruct (Qclt_le_dec (y - c) (x - c)) as [H|H], (Qclt_le_dec y x) as [H'|H'];
    try reflexivity.
  - apply Qclt_shift in H. exfalso. exact (Qclt_not_le _ _ H H').
  - apply Qclt_shift with (c := c) in H'. exfalso. exact (Qclt_not_le _ _ H' H).
Qed.

Lemma Qcmax_shift (x y c : Qc) : Qcmax (x - c) (y - c) = Qcmax x y - c.
Proof.
  unfold Qcmax.
  destruct (Qclt_le_dec (x - c) (y - c)) as [H|H], (Qclt_le_dec x y) as [H'|H'];
    try reflexivity.
  - apply Qclt_shift in H. exfalso. exact (Qclt_not_le _ _ H H').
  - apply Qclt_shift with (c := c) in H'. exfalso. exact (Qclt_not_le _ _ H' H).
Qed.

Lemma vmin_shift (a b c : vec3) : vmin (vsub a c) (vsub b c) = vsub (vmin a b) c.
Proof. unfold vmin, vsub, vmap2; simpl. by rewrite !Qcmin_shift. Qed.

Lemma vmax_shift (a b c : vec3) : vmax (vsub a c) (vsub b c) = vsub (vmax a b) c.
Proof. unfold vmax, vsub, vmap2; simpl. by rewrite !Qcmax_shift. Qed.

Lemma foldr_vmin_shift (c v : vec3) (vs : list vec3) :
  foldr vmin (vsub v c) (map (fun u => vsub u c) vs) = vsub (foldr vmin v vs) c.
Proof.
  induction vs as [|u vs IH]; simpl; [done|]. by rewrite IH, vmin_shift.
Qed.

Lemma foldr_vmax_shift (c v : vec3) (vs : list vec3) :
  foldr vmax (vsub v c) (map (fun u => vsub u c) vs) = vsub (foldr vmax v vs) c.
Proof.
  induction vs as [|u vs IH]; simpl; [done|]. by rewrite IH, vmax_shift.
Qed.

Lemma centre_cancels (lo hi : vec3) :
  vadd (vsub lo (vmap (Qcmult half) (vadd lo hi)))
       (vsub hi (vmap (Qcmult half) (vadd lo hi))) = vzero.
Proof.
  destruct lo as [a1 a2 a3], hi as [b1 b2 b3].
  unfold vadd, vsub, vmap, vmap2, vzero; simpl.
  f_equal.
  - transitivity ((a1 + b1) - (half * (a1 + b1) + half * (a1 + b1)));
      [ring | rewrite half_double; ring].
  - transitivity ((a2 + b2) - (half * (a2 + b2) + half * (a2 + b2)));
      [ring | rewrite half_double; ring].
  - transitivity ((a3 + b3) - (half * (a3 + b3) + half * (a3 + b3)));
      [ring | rewrite half_double; ring].
Qed.

Lemma vsub_vzero (v : vec3) : vsub v (vmap (Qcmult half) vzero) = v.
Proof.
  destruct v as [a b c]. unfold vsub, vmap, vmap2, vzero; simpl.
  f_equal; ring.
Qed.

(** [center_vertices] on a non-empty vertex set: a translation by the centre
    of the bounding box. *)
Lemma center_vertices_cons (v : vec3) (vs : list vec3) :
  center_vertices (v :: vs)
  = Ok (map (fun u => vsub u (bbox_center v vs)) (v :: vs)).
Proof. reflexivity. Qed.

(** The bounding box of the translated set is centred at the origin. *)
Lemma centered_bbox (v : vec3) (vs : list vec3) :
  let c := bbox_center v vs in
  vadd (foldr vmin (vsub v c) (map (fun u => vsub u c) vs))
       (foldr vmax (vsub v c) (map (fun u => vsub u c) vs)) = vzero.
Proof.
  intros c. rewrite foldr_vmin_shift, foldr_vmax_shift.
  apply centre_cancels.
Qed.

(** ** center_vertices *)

(** C10: [center_vertices] is idempotent on every non-empty vertex array (in
    exact arithmetic): centring succeeds, and centring the centred array
    gives it back unchanged. *)
Theorem center_vertices_idempotent (vertices : list vec3) :
  vertices <> [] ->
  exists centered,
    center_vertices vertices = Ok centered
    /\ center_vertices centered = Ok centered.
Proof.
  destruct vertices as [|v vs]; [done|]. intros _.
  rewrite center_vertices_cons. eexists. split; [reflexivity|].
  cbn [map]. rewrite center_vertices_cons.
  unfold bbox_center at 1. rewrite centered_bbox.
  f_equal. cbn [map]. rewrite vsub_vzero. f_equal.
  rewrite <- (map_id (map _ vs)) at 2.
  apply map_ext. intros u. apply vsub_vzero.
Qed.

(** ** The DMC extractor once it has settled *)

Section Properties.
Context `{K : Kernels}.

Lemma check_positional_run (kw : kwargs) :
  kw !! "self" = None -> kw !! "grid_logit" = None ->
  check_positional ["self"; "grid_logit"] kw = Ok tt.
Proof. intros H1 H2. simpl. by rewrite H1, H2. Qed.

Lemma DMC_probe_settled (w : env) (self : DMCSurfaceExtractor) (d : device) :
  settled self -> DMC_probe w self d = (self, [], Ok tt).
Proof.
  unfold DMC_probe. intros [[Hd Hf]|[Hf Hx]].
  - rewrite bool_decide_eq_true_2 by done. reflexivity.
  - rewrite Hf. by rewrite andb_false_r.
Qed.

(** A settled instance goes straight to its path: no probe, no event, no
    change of the instance, whatever the surroundings. *)
Lemma DMC_run_settled (w : env) (self : DMCSurfaceExtractor) (t : tensor)
    (kw : kwargs) (r : pyval) :
  binds_octree kw r -> settled self ->
  DMC_run w self t kw
  = (self, [],
     if _use_fallback self
     then DMC_fallback self t r (delete "octree_resolution" kw)
     else DMC_primary self t r).
Proof.
  intros (Hs & Hg & Hr) Hset. unfold DMC_run.
  rewrite check_positional_run by done.
  unfold keyword_only. cbn [mbind result_bind]. rewrite Hr.
  rewrite DMC_probe_settled by done.
  by destruct (_use_fallback self).
Qed.

(** X6: a call of the DMC [run] whose keywords do not bind (no
    octree_resolution, or a keyword named after the positional parameters
    self or grid_logit) raises TypeError before anything else happens: no
    probe, no output, and the instance is unchanged. *)
Lemma DMC_run_unbound (w : env) (self : DMCSurfaceExtractor) (t : tensor)
    (kw : kwargs) :
  kw !! "octree_resolution" = None \/ is_Some (kw !! "self")
  \/ is_Some (kw !! "grid_logit") ->
  exists msg, DMC_run w self t kw = (self, [], raise TypeError msg).
Proof.
  unfold DMC_run, keyword_only. simpl.
  destruct (kw !! "self") eqn:Hs; [eexists; reflexivity|].
  destruct (kw !! "grid_logit") eqn:Hg; [eexists; reflexivity|].
  intros [Hr|[[? ?]|[? ?]]]; try discriminate.
  cbn [mbind result_bind]. rewrite Hr. eexists; reflexivity.
Qed.

(** The primary path on a backend that returns the non-empty vertex set
    [v :: vs] and the faces [raw_faces]. *)
Lemma DMC_primary_ok (self : DMCSurfaceExtractor) (t : tensor) (r : pyval)
    (h : handle) (sdf : grid) (v : vec3) (vs : list vec3) (raw_faces : list face) :
  dmc self = Some h ->
  neg_div (t_data t) r = Ok sdf ->
  h (map (map (map to_float32)) sdf) = Ok (v :: vs, raw_faces) ->
  DMC_primary self t r
  = Ok (RTuple2 (map (fun u => vsub u (bbox_center v vs)) (v :: vs))
                (map (@rev Z) raw_faces)).
Proof.
  intros Hd Hn Hh. unfold DMC_primary. rewrite Hn. cbn [mbind result_bind].
  rewrite Hd, Hh. cbn [mbind result_bind].
  rewrite center_vertices_cons. reflexivity.
Qed.

(** C6: on the primary path of the DMC extractor every output face is the
    raw backend face with its indices in reverse order, whatever the face:
    the output faces are [map rev] of the raw faces, as many as the raw ones,
    and the face at each position is the reversal of the raw face there; a
    triangle (a,b,c) comes out as (c,b,a). *)
Theorem dmc_faces_reversed (w : env) (self : DMCSurfaceExtractor) (t : tensor)
    (kw : kwargs) (r : pyval) (h : handle) (sdf : grid)
    (v : vec3) (vs : list vec3) (raw_faces : list face) :
  binds_octree kw r ->
  dmc self = Some h -> _use_fallback self = false ->
  neg_div (t_data t) r = Ok sdf ->
  h (map (map (map to_float32)) sdf) = Ok (v :: vs, raw_faces) ->
  exists vertices faces,
    DMC_run w self t kw = (self, [], Ok (RTuple2 vertices faces))
    /\ faces = map (@rev Z) raw_faces
    /\ length faces = length raw_faces
    /\ (forall i f, raw_faces !! i = Some f -> faces !! i = Some (rev f))
    /\ (forall i a b c, raw_faces !! i = Some [a; b; c] -> faces !! i = Some [c; b; a]).
Proof.
  intros Hb Hd Hf Hn Hh.
  rewrite (DMC_run_settled w self t kw r Hb) by (left; by rewrite Hd).
  rewrite Hf, (DMC_primary_ok self t r h sdf v vs raw_faces) by done.
  do 2 eexists. split; [reflexivity|].
  split; [reflexivity|]. split; [apply length_map|].
  split.
  - intros i f Hi. by rewrite list_lookup_fmap_Some; eauto.
  - intros i a b c Hi.
    change [c; b; a] with (rev [a; b; c]).
    by rewrite list_lookup_fmap_Some; eauto.
Qed.

(** C7: on the primary path of the DMC extractor the returned vertices are
    the backend's vertices, each translated by minus half the sum of the
    per-axis minimum and maximum; for a non-empty vertex set the bounding box
    of what is returned is centred at the origin (per-axis min + max = 0, in
    exact arithmetic). *)
Theorem dmc_vertices_centered (w : env) (self : DMCSurfaceExtractor) (t : tensor)
    (kw : kwargs) (r : pyval) (h : handle) (sdf : grid)
    (v : vec3) (vs : list vec3) (raw_faces : list face) :
  binds_octree kw r ->
  dmc self = Some h -> _use_fallback self = false ->
  neg_div (t_data t) r = Ok sdf ->
  h (map (map (map to_float32)) sdf) = Ok (v :: vs, raw_faces) ->
  exists vertices faces lo hi,
    DMC_run w self t kw = (self, [], Ok (RTuple2 vertices faces))
    /\ vertices
       = map (fun u => vsub u (vmap (Qcmult half)
                                 (vadd (foldr vmin v vs) (foldr vmax v vs))))
             (v :: vs)
    /\ min_dim0 vertices = Ok lo /\ max_dim0 vertices = Ok hi
    /\ vadd lo hi = vzero.
Proof.
  intros Hb Hd Hf Hn Hh.
  rewrite (DMC_run_settled w self t kw r Hb) by (left; by rewrite Hd).
  rewrite Hf, (DMC_primary_ok self t r h sdf v vs raw_faces) by done.
  do 4 eexists. split; [reflexivity|].
  split; [reflexivity|]. cbn [map min_dim0 max_dim0].
  split; [reflexivity|]. split; [reflexivity|].
  apply centered_bbox.
Qed.

End Properties.

(** ** The probe and the fallback decision *)

Section Fallback.
Context `{K : Kernels}.

Lemma DMC_run_settled_path (w : env) (self : DMCSurfaceExtractor) (t : tensor)
    (kw : kwargs) :
  settled self -> DMC_run w self t kw = (self, [], settled_path self t kw).
Proof.
  intros Hset. unfold DMC_run, settled_path.
  destruct (_ ← check_positional ["self"; "grid_logit"] kw;
            keyword_only "octree_resolution" kw) as [r|e]; [|done].
  rewrite DMC_probe_settled by done.
  by destruct (_use_fallback self).
Qed.

Lemma DMC_calls_settled (self : DMCSurfaceExtractor)
    (calls : list (env * tensor * kwargs)) :
  settled self ->
  DMC_calls self calls
  = (self, [], map (fun c => settled_path self c.1.2 c.2) calls).
Proof.
  intros Hset. induction calls as [|[[w t] kw] calls IH]; [done|].
  cbn [DMC_calls]. rewrite DMC_run_settled_path by done.
  rewrite IH. reflexivity.
Qed.

(** What the probe of an instance that has not chosen yet can do. *)
Lemma DMC_probe_fresh (w : env) (self : DMCSurfaceExtractor) (d : device) :
  dmc self = None -> _use_fallback self = false ->
  DMC_probe w self d =
    match w d with
    | Ok h => (set_dmc self h, [EvProbe d], Ok tt)
    | Raise e =>
        if isinstance e ImportError then
          (set_fallback self, [EvProbe d; EvWarn UserWarning import_warning], Ok tt)
        else if init_recoverable e then
          (set_fallback self,
           [EvProbe d; EvWarn UserWarning (init_warning e);
            EvLogDebug ("diso initialization error: " ++ exn_msg e)], Ok tt)
        else (self, [EvProbe d], Raise e)
    end.
Proof.
  intros Hd Hf. unfold DMC_probe. rewrite Hd, Hf.
  rewrite bool_decide_eq_false_2 by (intros [? ?]; discriminate).
  reflexivity.
Qed.

(** C4: the availability probe of a DMC extractor instance runs at most
    once.  When a call on an instance that has not chosen yet ends with the
    backend handle acquired or the fallback flag set, that call probed
    exactly once and took the path that is now recorded; every later call on
    the instance, in whatever surroundings, leaves the instance as it is,
    probes nothing and returns what that same path returns: the
    surroundings of the later calls do not occur in their results. *)
Theorem dmc_probe_once (w0 : env) (self0 self1 : DMCSurfaceExtractor)
    (t0 : tensor) (kw0 : kwargs) (evs1 : list event) (r1 : result pyret)
    (calls : list (env * tensor * kwargs)) :
  dmc self0 = None -> _use_fallback self0 = false ->
  DMC_run w0 self0 t0 kw0 = (self1, evs1, r1) ->
  is_Some (dmc self1) \/ _use_fallback self1 = true ->
  probes evs1 = 1%nat
  /\ r1 = settled_path self1 t0 kw0
  /\ exists evs,
       DMC_calls self1 calls
       = (self1, evs, map (fun c => settled_path self1 c.1.2 c.2) calls)
       /\ probes evs = 0%nat.
Proof.
  intros Hd Hf Hrun Hchosen.
  assert (Hfirst : settled self1 /\ probes evs1 = 1%nat
                   /\ r1 = settled_path self1 t0 kw0).
  { revert Hrun. unfold DMC_run, settled_path.
    destruct (_ ← check_positional ["self"; "grid_logit"] kw0;
              keyword_only "octree_resolution" kw0) as [r|e].
    - rewrite DMC_probe_fresh by done.
      destruct (w0 (t_device t0)) as [h|e].
      + cbn. rewrite Hf. intros [= <- <- <-]. cbn. rewrite Hf.
        split; [|done]. left. split; [by eexists|done].
      + destruct (isinstance e ImportError).
        { cbn. intros [= <- <- <-]. cbn.
          split; [|done]. right. split; [done|by eexists]. }
        destruct (init_recoverable e).
        { cbn. intros [= <- <- <-]. cbn.
          split; [|done]. right. split; [done|by eexists]. }
        intros [= <- <- <-]. exfalso.
        destruct Hchosen as [[? Hx]|Hx]; congruence.
    - intros [= <- <- <-]. exfalso.
      destruct Hchosen as [[? Hx]|Hx]; congruence. }
  destruct Hfirst as (Hset & Hp & Hr).
  split; [done|]. split; [done|].
  exists []. split; [by apply DMC_calls_settled|done].
Qed.

(** C5: while the backend is constructed, an import failure or a recoverable
    initialisation error (RuntimeError, ValueError, TypeError,
    AttributeError, or a subclass of one of them) does not reach the caller:
    the call warns, sets the fallback flag with the Classic-MC extractor in
    place, and returns what the Classic-MC [run] returns on the same
    arguments; an exception of any other class comes out of [run] as it is,
    with the instance unchanged. *)
Theorem dmc_init_errors (w : env) (self : DMCSurfaceExtractor) (t : tensor)
    (kw : kwargs) (r : pyval) (e : exn) :
  binds_octree kw r ->
  dmc self = None -> _use_fallback self = false ->
  w (t_device t) = Raise e ->
  (isinstance e ImportError
   || isinstance e RuntimeError || isinstance e ValueError
   || isinstance e TypeError || isinstance e AttributeError = true ->
   exists msg debug,
     DMC_run w self t kw
     = (set_fallback self,
        EvProbe (t_device t) :: EvWarn UserWarning msg :: debug,
        MC_run t kw)
     /\ Forall (fun ev => exists m, ev = EvLogDebug m) debug
     /\ settled (set_fallback self))
  /\ (isinstance e ImportError
      || isinstance e RuntimeError || isinstance e ValueError
      || isinstance e TypeError || isinstance e AttributeError = false ->
      DMC_run w self t kw = (self, [EvProbe (t_device t)], Raise e)).
Proof.
  intros (Hs & Hg & Hr) Hd Hf Hw.
  assert (Hkw : <["octree_resolution" := r]> (delete "octree_resolution" kw) = kw)
    by (by apply insert_delete_id).
  assert (Hrun : DMC_run w self t kw
    = let '(self', evs, probed) := DMC_probe w self (t_device t) in
      match probed with
      | Raise e => (self', evs, Raise e)
      | Ok _ =>
          if _use_fallback self'
          then (self', evs, DMC_fallback self' t r (delete "octree_resolution" kw))
          else (self', evs, DMC_primary self' t r)
      end).
  { unfold DMC_run. rewrite check_positional_run by done.
    unfold keyword_only. cbn [mbind result_bind]. by rewrite Hr. }
  rewrite Hrun, DMC_probe_fresh, Hw by done.
  replace (isinstance e ImportError || isinstance e RuntimeError
           || isinstance e ValueError || isinstance e TypeError
           || isinstance e AttributeError)
    with (isinstance e ImportError || init_recoverable e)
    by (unfold init_recoverable; by rewrite !orb_assoc).
  split; intros Hrec.
  - destruct (isinstance e ImportError); cbn in Hrec.
    + exists import_warning, []. cbn. unfold DMC_fallback. cbn. rewrite Hkw.
      split; [done|]. split; [constructor|]. right. split; [done|by eexists].
    + rewrite Hrec. eexists (init_warning e), [_]. cbn.
      unfold DMC_fallback. cbn. rewrite Hkw.
      split; [done|]. split; [repeat constructor; by eexists|].
      right. split; [done|by eexists].
  - apply orb_false_iff in Hrec as [-> ->]. reflexivity.
Qed.

End Fallback.

(** ** Bounds and the Classic-MC remapping *)

(** C3 (amended): for every bounds argument that is a float [b], the resolver
    works on the symmetric 6-tuple (-b,-b,-b,b,b,b); on a 6-tuple it returns
    bbox_min = the first three entries, bbox_size = the last three minus the
    first three, and grid_size = three times octree_resolution + 1. *)
Theorem box_stat_float_bounds (b : Qc) (n : Z) (x0 y0 z0 x1 y1 z1 : Qc) :
  _compute_box_stat (VFloat b) (VInt n)
  = _compute_box_stat (VSeq [- b; - b; - b; b; b; b]) (VInt n)
  /\ _compute_box_stat (VSeq [x0; y0; z0; x1; y1; z1]) (VInt n)
     = Ok ([n + 1; n + 1; n + 1]%Z, [x0; y0; z0], [x1 - x0; y1 - y0; z1 - z0])
  /\ _compute_box_stat (VFloat b) (VInt n)
     = Ok ([n + 1; n + 1; n + 1]%Z, [- b; - b; - b],
           [b - - b; b - - b; b - - b]).
Proof. repeat split. Qed.

Lemma box_stat_grid_size (bounds : pyval) (n : Z) (gs : list Z) (lo sz : list Qc) :
  _compute_box_stat bounds (VInt n) = Ok (gs, lo, sz) ->
  gs = [n + 1; n + 1; n + 1]%Z.
Proof.
  unfold _compute_box_stat.
  destruct (py_slice _ 0 3) as [a|]; [|done]. cbn [mbind result_bind].
  destruct (py_slice _ 3 6) as [c|]; [|done]. cbn [mbind result_bind].
  destruct (np_binop Qcminus c a) as [s|]; [|done]. cbn.
  by intros [= <- _ _].
Qed.

Lemma Z2Qc_pos (n : Z) : (0 <= n)%Z -> Z2Qc (n + 1) <> 0.
Proof.
  intros Hn H. unfold Z2Qc in H.
  change 0 with (Q2Qc 0%Q) in H. apply Q2Qc_eq_iff in H.
  unfold Qeq, inject_Z in H. cbn in H. lia.
Qed.

Section ClassicMC.
Context `{K : Kernels}.

(** [MCSurfaceExtractor.run] looks at five keywords only. *)
Lemma MC_run_agree (t : tensor) (kw kw' : kwargs) :
  kw !! "self" = kw' !! "self" -> kw !! "grid_logit" = kw' !! "grid_logit" ->
  kw !! "mc_level" = kw' !! "mc_level" -> kw !! "bounds" = kw' !! "bounds" ->
  kw !! "octree_resolution" = kw' !! "octree_resolution" ->
  MC_run t kw = MC_run t kw'.
Proof.
  intros H1 H2 H3 H4 H5. unfold MC_run, keyword_only. cbn [check_positional].
  by rewrite H1, H2, H3, H4, H5.
Qed.

(** C2: the Classic-MC extractor maps every raw grid-index vertex [v] to
    [v / grid_size * bbox_size + bbox_min], elementwise, with
    grid_size = (R,R,R) and R = octree_resolution + 1.  The vertex (0,0,0)
    goes to bbox_min exactly and (R-1,R-1,R-1) goes to
    bbox_min + bbox_size*(R-1)/R, which on an axis of non-zero extent is not
    bbox_max = bbox_min + bbox_size (the divisor is R, not R-1). *)
Theorem mc_vertex_remap (t : tensor) (kw : kwargs) (level bounds : pyval) (n : Z)
    (gs : list Z) (m1 m2 m3 s1 s2 s3 : Qc)
    (raw : list vec3) (faces : list face) :
  kw !! "self" = None -> kw !! "grid_logit" = None ->
  kw !! "mc_level" = Some level -> kw !! "bounds" = Some bounds ->
  kw !! "octree_resolution" = Some (VInt n) ->
  marching_cubes (t_data t) level = Ok (raw, faces) ->
  _compute_box_stat bounds (VInt n) = Ok (gs, [m1; m2; m3], [s1; s2; s3]) ->
  (0 <= n)%Z ->
  let R := Z2Qc (n + 1) in
  let bbox_min := V3 m1 m2 m3 in
  let bbox_size := V3 s1 s2 s3 in
  let remap := fun v => vadd (vmul (vdiv v (V3 R R R)) bbox_size) bbox_min in
  let top := remap (V3 (R - 1) (R - 1) (R - 1)) in
  MC_run t kw = Ok (RTuple2 (map remap raw) faces)
  /\ remap vzero = bbox_min
  /\ top = vadd bbox_min (vdiv (vmul bbox_size (V3 (R - 1) (R - 1) (R - 1))) (V3 R R R))
  /\ (s1 <> 0 -> vx top <> m1 + s1)
  /\ (s2 <> 0 -> vy top <> m2 + s2)
  /\ (s3 <> 0 -> vz top <> m3 + s3).
Proof.
  intros Hs Hg Hl Hb Hr Hmc Hbox Hn R bbox_min bbox_size remap top.
  assert (HR : R <> 0) by (by apply Z2Qc_pos).
  assert (Hne : forall s m, s <> 0 -> (R - 1) / R * s + m <> m + s).
  { intros s m Hs0 Heq. apply Hs0.
    assert (Hz : s * / R = 0).
    { transitivity ((m + s) - ((R - 1) / R * s + m)); [|rewrite Heq; ring].
      unfold Qcdiv.
      transitivity (s * / R + s * (1 - R * / R));
        [rewrite Qcmult_inv_r by done; ring | ring]. }
    destruct (Qcmult_integral _ _ Hz) as [H0|H0]; [done|].
    exfalso. pose proof (Qcmult_inv_r R HR) as Hi.
    rewrite H0, Qcmult_0_r in Hi.
    change (Q2Qc 0%Q = Q2Qc 1%Q) in Hi. apply Q2Qc_eq_iff in Hi.
    unfold Qeq in Hi. cbn in Hi. lia. }
  split.
  - unfold MC_run, keyword_only. rewrite check_positional_run by done.
    cbn [mbind result_bind]. rewrite Hl. cbn [mbind result_bind].
    rewrite Hb. cbn [mbind result_bind]. rewrite Hr. cbn [mbind result_bind].
    rewrite Hmc. cbn [mbind result_bind]. rewrite Hbox. cbn [mbind result_bind].
    rewrite (box_stat_grid_size _ _ _ _ _ Hbox). cbn [map as_row3 mbind result_bind].
    rewrite !map_map. reflexivity.
  - split; [|split; [|repeat split]].
    + unfold remap, vadd, vmul, vdiv, vmap2, vzero, bbox_min, Qcdiv; cbn.
      f_equal; ring.
    + unfold top, remap, vadd, vmul, vdiv, vmap2, bbox_min, bbox_size, Qcdiv; cbn.
      f_equal; ring.
    + intros H. cbn. by apply Hne.
    + intros H. cbn. by apply Hne.
    + intros H. cbn. by apply Hne.
Qed.

End ClassicMC.

(** ** Extra keywords of the DMC [run] *)

Section ExtraKeywords.
Context `{K : Kernels}.

(** C8 (amended): a call of the DMC [run] whose keywords bind (none is named
    after a positional parameter, octree_resolution is present) never fails
    for carrying extra keywords.  On the primary path the result is that of
    the backend path on octree_resolution alone, so all extra keywords are
    ignored.  On the fallback path the whole keyword set goes to the
    Classic-MC [run]: the result is [MC_run] on the same keywords, it depends
    on the extra keywords mc_level and bounds and on no other. *)
Theorem dmc_extra_kwargs (w : env) (self : DMCSurfaceExtractor) (t : tensor)
    (kw kw' : kwargs) (r : pyval) :
  settled self -> binds_octree kw r -> binds_octree kw' r ->
  (_use_fallback self = false ->
     DMC_run w self t kw = (self, [], DMC_primary self t r)
     /\ DMC_run w self t kw' = DMC_run w self t kw)
  /\ (_use_fallback self = true ->
     DMC_run w self t kw = (self, [], MC_run t kw)
     /\ (kw' !! "mc_level" = kw !! "mc_level" ->
         kw' !! "bounds" = kw !! "bounds" ->
         DMC_run w self t kw' = DMC_run w self t kw)).
Proof.
  intros Hset Hb Hb'.
  rewrite (DMC_run_settled w self t kw r Hb Hset).
  rewrite (DMC_run_settled w self t kw' r Hb' Hset).
  split; intros Hf; rewrite Hf.
  - done.
  - destruct Hset as [[_ Hc]|[_ [x Hx]]]; [congruence|].
    destruct Hb as (Hs & Hg & Hr), Hb' as (Hs' & Hg' & Hr').
    unfold DMC_fallback. rewrite Hx.
    rewrite !insert_delete_id by done.
    split; [done|]. intros Hl Hbd. f_equal.
    apply MC_run_agree; congruence.
Qed.

End ExtraKeywords.

(** ** The batch driver *)

Section Batch.
Context `{K : Kernels} {S : Type} `{E : !Extractor S}.

Lemma call_loop_spec (world : nat -> env) (d : device) (kw : kwargs)
    (items : list grid) :
  forall (i : nat) (self : S) (outputs : list (option Latent2MeshOutput)),
  (forall k evk e,
     outcome_from world d kw i items self k = Some (evk, Raise e) ->
     isinstance e Exception = true) ->
  exists self' evs outs,
    call_loop world d kw i items self outputs = (self', evs, Ok (outputs ++ outs))
    /\ length outs = length items
    /\ forall k, (k < length items)%nat ->
         exists evk r,
           outcome_from world d kw i items self k = Some (evk, r)
           /\ match r with
              | Ok m => outs !! k = Some (Some m)
              | Raise e => outs !! k = Some None /\ In (EvTraceback e) evs
              end.
Proof.
  induction items as [|g rest IH]; intros i self outputs Hexc.
  - exists self, [], []. cbn. rewrite app_nil_r. repeat split; [done..|].
    intros k Hk. lia.
  - cbn [call_loop]. cbn [outcome_from] in Hexc |- *.
    destruct (try_body (world i) self (Tensor d g) kw) as [[self1 ev1] r1] eqn:Hb.
    assert (Hrest : forall k evk e,
      outcome_from world d kw (Datatypes.S i) rest self1 k = Some (evk, Raise e) ->
      isinstance e Exception = true).
    { intros k evk e Hk. exact (Hexc (Datatypes.S k) evk e Hk). }
    destruct r1 as [m|e].
    + destruct (IH (Datatypes.S i) self1 (outputs ++ [Some m]) Hrest)
        as (self' & evs' & outs' & Hloop & Hlen & Hat).
      rewrite Hloop. exists self', (ev1 ++ evs'), (Some m :: outs').
      split; [by rewrite <- app_assoc|]. split; [cbn; lia|].
      intros [|k] Hk.
      * exists ev1, (Ok m). done.
      * destruct (Hat k) as (evk & r & Hk1 & Hk2); [cbn in Hk; lia|].
        exists evk, r. split; [done|]. destruct r as [m'|e']; [done|].
        destruct Hk2 as [Hk2 Hin]. split; [done|]. apply in_or_app. by right.
    + rewrite (Hexc 0%nat ev1 e eq_refl).
      destruct (IH (Datatypes.S i) self1 (outputs ++ [None]) Hrest)
        as (self' & evs' & outs' & Hloop & Hlen & Hat).
      rewrite Hloop. exists self', (ev1 ++ EvTraceback e :: evs'), (None :: outs').
      split; [by rewrite <- app_assoc|]. split; [cbn; lia|].
      intros [|k] Hk.
      * exists ev1, (Raise e). split; [done|]. split; [done|].
        apply in_or_app. right. by left.
      * destruct (Hat k) as (evk & r & Hk1 & Hk2); [cbn in Hk; lia|].
        exists evk, r. split; [done|]. destruct r as [m'|e']; [done|].
        destruct Hk2 as [Hk2 Hin]. split; [done|].
        apply in_or_app. right. by right.
Qed.

(** C1 (amended): for every batch of N scalar fields in which every
    exception raised by an item's extraction derives from [Exception], the
    batch driver returns exactly N results in input order.  Position k holds
    the mesh of item k when its extraction succeeds; when it raises, the
    driver prints the traceback and puts None at position k.  Every position
    gets its result whatever the other items did. *)
Theorem call_isolates_failures (world : nat -> env) (self : S)
    (grid_logits : batch) (kw : kwargs) :
  (forall k evk e,
     outcome_at world self grid_logits kw k = Some (evk, Raise e) ->
     isinstance e Exception = true) ->
  exists self' evs outputs,
    __call__ world self grid_logits kw = (self', evs, Ok outputs)
    /\ length outputs = length (b_items grid_logits)
    /\ forall k, (k < length (b_items grid_logits))%nat ->
         exists evk r,
           outcome_at world self grid_logits kw k = Some (evk, r)
           /\ match r with
              | Ok m => outputs !! k = Some (Some m)
              | Raise e => outputs !! k = Some None /\ In (EvTraceback e) evs
              end.
Proof.
  intros Hexc. unfold __call__, outcome_at in *.
  destruct (call_loop_spec world (b_device grid_logits) kw (b_items grid_logits)
              0%nat self [] Hexc) as (self' & evs & outs & Hloop & Hlen & Hat).
  exists self', evs, outs. done.
Qed.

End Batch.

Section BaseClass.
Context `{K : Kernels}.

Lemma base_try_body (w : env) (self : SurfaceExtractor) (t : tensor) (kw : kwargs) :
  kw !! "self" = None ->
  try_body w self t kw = (self, [], Raise unpack_error).
Proof.
  intros Hs. unfold try_body, run, SurfaceExtractor_class, SurfaceExtractor_run.
  cbn. by rewrite Hs.
Qed.

Lemma base_call_loop (world : nat -> env) (d : device) (kw : kwargs)
    (items : list grid) :
  kw !! "self" = None ->
  forall (i : nat) (self : SurfaceExtractor) (outputs : list (option Latent2MeshOutput)),
  call_loop world d kw i items self outputs
  = (self, replicate (length items) (EvTraceback unpack_error),
     Ok (outputs ++ replicate (length items) None)).
Proof.
  intros Hs. induction items as [|g rest IH]; intros i self outputs.
  - cbn. by rewrite app_nil_r.
  - cbn [call_loop]. rewrite base_try_body by done.
    change (isinstance unpack_error Exception) with true. cbv iota.
    rewrite IH. cbn. by rewrite <- app_assoc.
Qed.

(** C9: the base class [run] returns the class object NotImplementedError
    and raises nothing (the keywords of [__call__] cannot name [self]).  The
    batch driver on an extractor that keeps this [run] therefore never lets a
    NotImplementedError out: for each item the unpacking of the returned
    value raises a TypeError inside the [try], whose traceback is printed,
    and every one of the N results is None. *)
Theorem base_run_returns_class (world : nat -> env) (grid_logits : batch)
    (kw : kwargs) :
  kw !! "self" = None ->
  SurfaceExtractor_run kw = Ok (RClass NotImplementedError)
  /\ unpack2 (RClass NotImplementedError) = Raise unpack_error
  /\ exn_cls unpack_error = TypeError
  /\ __call__ world MkSurfaceExtractor grid_logits kw
     = (MkSurfaceExtractor,
        replicate (length (b_items grid_logits)) (EvTraceback unpack_error),
        Ok (replicate (length (b_items grid_logits)) None)).
Proof.
  intros Hs. split; [|split; [done|split; [done|]]].
  - unfold SurfaceExtractor_run. cbn. by rewrite Hs.
  - unfold __call__. by rewrite base_call_loop.
Qed.

End BaseClass.

(** ** Instances of the theorems on the sample data *)

Section Samples.
#[local] Existing Instance sample_kernels.

Lemma center_vertices_idempotent_witness :
  exists centered,
    center_vertices sample_vertices = Ok centered
    /\ center_vertices centered = Ok centered.
Proof. apply (center_vertices_idempotent sample_vertices). discriminate. Defined.

Lemma dmc_faces_reversed_witness :
  exists vertices,
    DMC_run diso_missing backend_instance sample_tensor
      sample_kwargs
    = (backend_instance, [], Ok (RTuple2 vertices [[2; 1; 0]%Z; [3; 1; 2]%Z])).
Proof.
  destruct (dmc_faces_reversed diso_missing backend_instance
              sample_tensor sample_kwargs (VInt 1) sample_dmc sample_sdf
              (V3 (qc 1 1) (qc 2 1) (qc 3 1))
              [V3 (qc 3 1) (qc 4 1) (qc 5 1); V3 (qc 2 1) (qc 2 1) (qc 2 1)]
              [[0; 1; 2]%Z; [2; 1; 3]%Z])
    as (vertices & faces & Hrun & Hfaces & _);
    [repeat split | reflexivity | reflexivity | reflexivity | reflexivity |].
  exists vertices. rewrite Hrun, Hfaces. reflexivity.
Defined.

Lemma dmc_vertices_centered_witness :
  exists vertices faces lo hi,
    DMC_run diso_missing backend_instance sample_tensor
      sample_kwargs
    = (backend_instance, [], Ok (RTuple2 vertices faces))
    /\ min_dim0 vertices = Ok lo /\ max_dim0 vertices = Ok hi
    /\ vadd lo hi = vzero.
Proof.
  destruct (dmc_vertices_centered diso_missing backend_instance
              sample_tensor sample_kwargs (VInt 1) sample_dmc sample_sdf
              (V3 (qc 1 1) (qc 2 1) (qc 3 1))
              [V3 (qc 3 1) (qc 4 1) (qc 5 1); V3 (qc 2 1) (qc 2 1) (qc 2 1)]
              [[0; 1; 2]%Z; [2; 1; 3]%Z])
    as (vertices & faces & lo & hi & Hrun & _ & Hlo & Hhi & Hc);
    [repeat split | reflexivity | reflexivity | reflexivity | reflexivity |].
  exists vertices, faces, lo, hi. repeat split; assumption.
Defined.

Lemma dmc_probe_once_witness :
  let first := DMC_run diso_missing DMC_init sample_tensor
                 sample_kwargs in
  let later := [(diso_present, sample_tensor, sample_kwargs);
                (diso_broken, sample_tensor, wide_kwargs)] in
  probes first.1.2 = 1%nat
  /\ first.2 = settled_path first.1.1 sample_tensor sample_kwargs
  /\ exists evs,
       DMC_calls first.1.1 later
       = (first.1.1, evs, map (fun c => settled_path first.1.1 c.1.2 c.2) later)
       /\ probes evs = 0%nat.
Proof.
  intros first later.
  apply (dmc_probe_once diso_missing DMC_init first.1.1
           sample_tensor sample_kwargs first.1.2 first.2 later);
    [reflexivity | reflexivity | reflexivity | right; reflexivity].
Defined.

Lemma dmc_init_errors_witness :
  exists msg debug,
    DMC_run diso_broken DMC_init sample_tensor sample_kwargs
    = (fallback_instance,
       EvProbe CPU :: EvWarn UserWarning msg :: debug,
       MC_run sample_tensor sample_kwargs).
Proof.
  destruct (dmc_init_errors diso_broken DMC_init sample_tensor
              sample_kwargs (VInt 1)
              (Exn RuntimeError "CUDA error: no kernel image is available"))
    as [Hrec _]; [repeat split | reflexivity | reflexivity | reflexivity |].
  destruct (Hrec eq_refl) as (msg & debug & Hrun & _).
  exists msg, debug. exact Hrun.
Defined.

Lemma mc_vertex_remap_witness :
  MC_run sample_tensor sample_kwargs
  = Ok (RTuple2
          (map (fun v => vadd (vmul (vdiv v (V3 (Z2Qc 2) (Z2Qc 2) (Z2Qc 2)))
                                 (V3 (qc 101 100 - - qc 101 100)
                                     (qc 101 100 - - qc 101 100)
                                     (qc 101 100 - - qc 101 100)))
                            (V3 (- qc 101 100) (- qc 101 100) (- qc 101 100)))
               [V3 (qc 0 1) (qc 0 1) (qc 0 1); V3 (qc 1 1) (qc 0 1) (qc 0 1);
                V3 (qc 1 1) (qc 1 1) (qc 1 1)])
          [[0; 1; 2]%Z]).
Proof.
  apply (mc_vertex_remap sample_tensor sample_kwargs (VFloat (qc 0 1))
           (VFloat (qc 101 100)) 1 [2; 2; 2]%Z);
    [reflexivity | reflexivity | reflexivity | reflexivity | reflexivity
    | reflexivity | reflexivity | lia].
Defined.

Lemma dmc_extra_kwargs_witness :
  DMC_run diso_present backend_instance sample_tensor wide_kwargs
  = DMC_run diso_present backend_instance sample_tensor sample_kwargs.
Proof.
  destruct (dmc_extra_kwargs diso_present backend_instance sample_tensor
              sample_kwargs wide_kwargs (VInt 1)) as [Hprimary _];
    [left; split; [by eexists | reflexivity] | repeat split | repeat split |].
  destruct (Hprimary eq_refl) as [_ Hsame]. exact Hsame.
Defined.

Lemma call_isolates_failures_witness :
  exists self' evs outputs,
    __call__ (fun _ => diso_missing) MkMCSurfaceExtractor mixed_batch sample_kwargs
    = (self', evs, Ok outputs)
    /\ length outputs = 3%nat
    /\ outputs !! 1%nat = Some None.
Proof.
  destruct (call_isolates_failures (fun _ => diso_missing) MkMCSurfaceExtractor
              mixed_batch sample_kwargs)
    as (self' & evs & outputs & Hcall & Hlen & Hat).
  - intros [|[|[|k]]] evk e H; vm_compute in H; try discriminate H.
    injection H as _ <-. reflexivity.
  - exists self', evs, outputs. split; [exact Hcall|]. split; [exact Hlen|].
    destruct (Hat 1%nat) as (evk & r & Hout & Hr); [cbn; lia|].
    vm_compute in Hout. injection Hout as _ <-. apply Hr.
Defined.

Lemma base_run_returns_class_witness :
  __call__ (fun _ => diso_present) MkSurfaceExtractor mixed_batch sample_kwargs
  = (MkSurfaceExtractor,
     [EvTraceback unpack_error; EvTraceback unpack_error; EvTraceback unpack_error],
     Ok [None; None; None]).
Proof.
  apply (base_run_returns_class (fun _ => diso_present) mixed_batch sample_kwargs).
  reflexivity.
Defined.

End Samples.

(** ** Counterexamples *)

(** C1 as worded ("any exception"): a marching-cubes kernel interrupted from
    the keyboard raises KeyboardInterrupt, which [except Exception] does not
    catch; the driver then returns no result list at all for the 3-item
    batch. *)
Lemma call_aborts_on_keyboard_interrupt :
  (__call__ (K := interrupted_kernels) (E := @MC_class interrupted_kernels)
     (fun _ => diso_missing) MkMCSurfaceExtractor mixed_batch sample_kwargs).2
  = raise KeyboardInterrupt ""
  /\ ~ exists outputs,
        (__call__ (K := interrupted_kernels) (E := @MC_class interrupted_kernels)
           (fun _ => diso_missing) MkMCSurfaceExtractor mixed_batch sample_kwargs).2
        = Ok outputs.
Proof.
  split; [reflexivity|].
  intros [outputs H]. vm_compute in H. discriminate H.
Qed.

(** C3 as worded ("every single scalar"): the int scalar 1 is not expanded
    to (-1,-1,-1,1,1,1); slicing it raises TypeError. *)
Lemma box_stat_int_bounds_raise :
  _compute_box_stat (VInt 1) (VInt 32)
  = raise TypeError "'int' object is not subscriptable"
  /\ _compute_box_stat (VInt 1) (VInt 32)
     <> _compute_box_stat (VSeq [- qc 1 1; - qc 1 1; - qc 1 1; qc 1 1; qc 1 1; qc 1 1])
          (VInt 32).
Proof. split; [reflexivity | discriminate]. Qed.

(** C8 as worded ("ignores them ... regardless of which path"): on an
    instance that fell back, two calls whose keywords differ only in the
    extra keyword [bounds] return different results. *)
Lemma dmc_fallback_reads_bounds :
  settled fallback_instance
  /\ binds_octree sample_kwargs (VInt 1) /\ binds_octree wide_kwargs (VInt 1)
  /\ (DMC_run (K := sample_kernels) diso_present fallback_instance sample_tensor
        wide_kwargs).2
     <> (DMC_run (K := sample_kernels) diso_present fallback_instance sample_tensor
           sample_kwargs).2.
Proof.
  split; [right; split; [reflexivity | by eexists]|].
  split; [repeat split|]. split; [repeat split|].
  intros H. vm_compute in H. discriminate H.
Qed.

(** * Further properties of the extractors *)

(** ** More on center_vertices *)

Lemma Qcmin_plus (x y c : Qc) : Qcmin (x + c) (y + c) = Qcmin x y + c.
Proof.
  replace (x + c) with (x - - c) by ring. replace (y + c) with (y - - c) by ring.
  rewrite Qcmin_shift. ring.
Qed.

Lemma Qcmax_plus (x y c : Qc) : Qcmax (x + c) (y + c) = Qcmax x y + c.
Proof.
  replace (x + c) with (x - - c) by ring. replace (y + c) with (y - - c) by ring.
  rewrite Qcmax_shift. ring.
Qed.

Lemma foldr_vmin_plus (t v : vec3) (vs : list vec3) :
  foldr vmin (vadd v t) (map (fun u => vadd u t) vs) = vadd (foldr vmin v vs) t.
Proof.
  induction vs as [|u vs IH]; cbn [map foldr]; [done|].
  rewrite IH. unfold vmin, vadd, vmap2; cbn. by rewrite !Qcmin_plus.
Qed.

Lemma foldr_vmax_plus (t v : vec3) (vs : list vec3) :
  foldr vmax (vadd v t) (map (fun u => vadd u t) vs) = vadd (foldr vmax v vs) t.
Proof.
  induction vs as [|u vs IH]; cbn [map foldr]; [done|].
  rewrite IH. unfold vmax, vadd, vmap2; cbn. by rewrite !Qcmax_plus.
Qed.

Lemma bbox_center_plus (t v : vec3) (vs : list vec3) :
  bbox_center (vadd v t) (map (fun u => vadd u t) vs) = vadd (bbox_center v vs) t.
Proof.
  unfold bbox_center. rewrite foldr_vmin_plus, foldr_vmax_plus.
  destruct (foldr vmin v vs) as [a1 a2 a3], (foldr vmax v vs) as [b1 b2 b3], t as [t1 t2 t3].
  unfold vadd, vmap, vmap2; cbn. f_equal.
  - transitivity (half * (a1 + b1) + (half * t1 + half * t1)); [ring|by rewrite half_double].
  - transitivity (half * (a2 + b2) + (half * t2 + half * t2)); [ring|by rewrite half_double].
  - transitivity (half * (a3 + b3) + (half * t3 + half * t3)); [ring|by rewrite half_double].
Qed.

Lemma vsub_vadd_cancel (u c t : vec3) : vsub (vadd u t) (vadd c t) = vsub u c.
Proof.
  destruct u, c, t. unfold vsub, vadd, vmap2; cbn. f_equal; ring.
Qed.

(** X1: [center_vertices] forgets any constant offset of its input: adding the
    same vector to every vertex does not change the result (on the empty
    array both sides raise the same error). *)
Theorem center_vertices_translation (t : vec3) (vertices : list vec3) :
  center_vertices (map (fun v => vadd v t) vertices) = center_vertices vertices.
Proof.
  destruct vertices as [|v vs]; [reflexivity|].
  cbn [map]. rewrite !center_vertices_cons, bbox_center_plus.
  f_equal. cbn [map]. rewrite vsub_vadd_cancel. f_equal.
  rewrite map_map. apply map_ext. intros u. apply vsub_vadd_cancel.
Qed.



(** ** The Classic-MC extractor and the bounding box *)

Lemma Z2Qc_gt0 (n : Z) : (0 <= n)%Z -> 0 < Z2Qc (n + 1).
Proof.
  intros Hn. unfold Z2Qc, Qclt. cbn [this Q2Qc].
  rewrite !Qred_correct. unfold Qlt, inject_Z. cbn. lia.
Qed.

Lemma remap_in_box (R x s m : Qc) :
  0 < R -> 0 <= x -> x <= R - 1 -> 0 < s ->
  m <= x / R * s + m /\ x / R * s + m < m + s.
Proof.
  intros HR Hx0 Hx1 Hs.
  assert (HRne : R <> 0).
  { intros ->. exact (Qclt_not_le _ _ HR (Qcle_refl 0)). }
  assert (Hcancel : x / R * R = x) by (rewrite Qcmult_comm; by apply Qcmult_div_r).
  assert (Hy0 : 0 <= x / R).
  { apply (Qcmult_lt_0_le_reg_r _ _ R HR). rewrite Hcancel.
    by replace (0 * R) with 0 by ring. }
  assert (Hy1 : x / R < 1).
  { apply Qcnot_le_lt. intros H1.
    apply (Qcmult_le_compat_r _ _ R) in H1; [|by apply Qclt_le_weak].
    rewrite Hcancel in H1. replace (1 * R) with R in H1 by ring.
    pose proof (Qcle_trans _ _ _ H1 Hx1) as Hbad.
    apply Qcle_minus_iff in Hbad.
    replace (R - 1 + - R) with (- (1)) in Hbad by ring.
    vm_compute in Hbad. exact (Hbad eq_refl). }
  split.
  - apply Qcle_minus_iff. replace (x / R * s + m + - m) with (x / R * s) by ring.
    replace 0 with (0 * s) by ring.
    apply Qcmult_le_compat_r; [done|by apply Qclt_le_weak].
  - apply Qclt_minus_iff.
    replace (m + s + - (x / R * s + m)) with ((1 - x / R) * s) by ring.
    replace 0 with (0 * s) by ring.
    apply Qcmult_lt_compat_r; [done|].
    apply Qclt_minus_iff in Hy1. exact Hy1.
Qed.

Section MoreMC.
Context `{K : Kernels}.

Lemma MC_run_ok (t : tensor) (kw : kwargs) (level bounds : pyval) (n : Z)
    (gs : list Z) (m1 m2 m3 s1 s2 s3 : Qc)
    (raw : list vec3) (faces : list face) :
  kw !! "self" = None -> kw !! "grid_logit" = None ->
  kw !! "mc_level" = Some level -> kw !! "bounds" = Some bounds ->
  kw !! "octree_resolution" = Some (VInt n) ->
  marching_cubes (t_data t) level = Ok (raw, faces) ->
  _compute_box_stat bounds (VInt n) = Ok (gs, [m1; m2; m3], [s1; s2; s3]) ->
  MC_run t kw
  = Ok (RTuple2
          (map (fun v => vadd (vmul (vdiv v (V3 (Z2Qc (n + 1)) (Z2Qc (n + 1)) (Z2Qc (n + 1))))
                                 (V3 s1 s2 s3)) (V3 m1 m2 m3)) raw)
          faces).
Proof.
  intros Hs Hg Hl Hb Hr Hmc Hbox.
  unfold MC_run, keyword_only. rewrite check_positional_run by done.
  cbn [mbind result_bind]. rewrite Hl. cbn [mbind result_bind].
  rewrite Hb. cbn [mbind result_bind]. rewrite Hr. cbn [mbind result_bind].
  rewrite Hmc. cbn [mbind result_bind]. rewrite Hbox. cbn [mbind result_bind].
  rewrite (box_stat_grid_size _ _ _ _ _ Hbox). cbn [map as_row3 mbind result_bind].
  rewrite !map_map. reflexivity.
Qed.

(** X3: the Classic-MC extractor keeps the mesh inside the bounding box: when
    every raw vertex lies on the grid (0 <= coordinate <= R-1, R =
    octree_resolution + 1) and the box has positive extent on each axis, every
    returned vertex v satisfies bbox_min <= v < bbox_min + bbox_size on each
    axis, and as many vertices are returned as the kernel produced. *)
Theorem mc_vertices_in_box (t : tensor) (kw : kwargs) (level bounds : pyval) (n : Z)
    (gs : list Z) (m1 m2 m3 s1 s2 s3 : Qc)
    (raw : list vec3) (faces : list face) :
  kw !! "self" = None -> kw !! "grid_logit" = None ->
  kw !! "mc_level" = Some level -> kw !! "bounds" = Some bounds ->
  kw !! "octree_resolution" = Some (VInt n) ->
  marching_cubes (t_data t) level = Ok (raw, faces) ->
  _compute_box_stat bounds (VInt n) = Ok (gs, [m1; m2; m3], [s1; s2; s3]) ->
  (0 <= n)%Z -> 0 < s1 -> 0 < s2 -> 0 < s3 ->
  Forall (in_grid (Z2Qc (n + 1))) raw ->
  exists vertices,
    MC_run t kw = Ok (RTuple2 vertices faces)
    /\ length vertices = length raw
    /\ Forall (in_box (V3 m1 m2 m3) (V3 s1 s2 s3)) vertices.
Proof.
  intros Hs Hg Hl Hb Hr Hmc Hbox Hn H1 H2 H3 Hraw.
  rewrite (MC_run_ok t kw level bounds n gs m1 m2 m3 s1 s2 s3 raw faces) by done.
  eexists. split; [reflexivity|]. split; [by rewrite length_map|].
  apply Forall_fmap. eapply Forall_impl; [exact Hraw|].
  intros [x y z] ((Hx0 & Hx1) & (Hy0 & Hy1) & (Hz0 & Hz1)). cbn in *.
  pose proof (Z2Qc_gt0 n Hn) as HR.
  unfold in_box; cbn.
  repeat split; by apply remap_in_box.
Qed.

End MoreMC.

(** ** Face indices stay valid *)

Lemma bind_Ok {A B} (m : result A) (f : A -> result B) (b : B) :
  m ≫= f = Ok b -> exists a, m = Ok a /\ f a = Ok b.
Proof. destruct m as [a|e]; [|discriminate]. intros H. by exists a. Qed.

Lemma valid_mesh_length (vs vs' : list vec3) (fs : list face) :
  length vs' = length vs -> valid_mesh vs fs -> valid_mesh vs' fs.
Proof. unfold valid_mesh. by intros ->. Qed.

Lemma valid_mesh_rev (vs : list vec3) (fs : list face) :
  valid_mesh vs fs -> valid_mesh vs (map (@rev Z) fs).
Proof.
  unfold valid_mesh. intros H. apply Forall_fmap.
  eapply Forall_impl; [exact H|]. intros f Hf. cbn.
  by apply List.Forall_rev.
Qed.

Section Validity.
Context `{K : Kernels}.

Lemma MC_run_valid (t : tensor) (kw : kwargs) (vs : list vec3) (fs : list face) :
  (forall l, valid_kernel (fun g => marching_cubes g l)) ->
  MC_run t kw = Ok (RTuple2 vs fs) -> valid_mesh vs fs.
Proof.
  intros Hk. unfold MC_run. intros H.
  apply bind_Ok in H as (_ & _ & H).
  apply bind_Ok in H as (level & _ & H).
  apply bind_Ok in H as (bounds & _ & H).
  apply bind_Ok in H as (r & _ & H).
  apply bind_Ok in H as ([raw faces] & Hmc & H).
  apply bind_Ok in H as ([[gs lo] sz] & _ & H).
  apply bind_Ok in H as (g3 & _ & H).
  apply bind_Ok in H as (s3 & _ & H).
  apply bind_Ok in H as (m3 & _ & H).
  injection H as <- <-.
  apply (valid_mesh_length raw); [by rewrite !length_map|].
  exact (Hk level _ _ _ Hmc).
Qed.

Lemma DMC_primary_valid (self : DMCSurfaceExtractor) (t : tensor) (r : pyval)
    (vs : list vec3) (fs : list face) :
  (forall h, dmc self = Some h -> valid_kernel h) ->
  DMC_primary self t r = Ok (RTuple2 vs fs) -> valid_mesh vs fs.
Proof.
  intros Hk. unfold DMC_primary. intros H.
  apply bind_Ok in H as (sdf & _ & H).
  destruct (dmc self) as [h|] eqn:Hd; [|discriminate].
  apply bind_Ok in H as ([raw faces] & Hh & H).
  apply bind_Ok in H as (centered & Hc & H).
  injection H as <- <-.
  apply valid_mesh_rev. apply (valid_mesh_length raw).
  - destruct raw as [|v raw]; [discriminate|].
    rewrite center_vertices_cons in Hc. injection Hc as <-.
    cbn [map length]. by rewrite length_map.
  - exact (Hk h eq_refl _ _ _ Hh).
Qed.

Lemma DMC_run_valid (w : env) (self self' : DMCSurfaceExtractor) (t : tensor)
    (kw : kwargs) (evs : list event) (vs : list vec3) (fs : list face) :
  (forall l, valid_kernel (fun g => marching_cubes g l)) ->
  (forall h, dmc self = Some h -> valid_kernel h) ->
  (forall h, w (t_device t) = Ok h -> valid_kernel h) ->
  DMC_run w self t kw = (self', evs, Ok (RTuple2 vs fs)) -> valid_mesh vs fs.
Proof.
  intros Hmc Hself Hw. unfold DMC_run.
  destruct (_ ← check_positional ["self"; "grid_logit"] kw;
            keyword_only "octree_resolution" kw) as [r|e]; [|discriminate].
  assert (Hprobe : forall self1 evs1 u,
    DMC_probe w self (t_device t) = (self1, evs1, Ok u) ->
    forall h, dmc self1 = Some h -> valid_kernel h).
  { unfold DMC_probe. intros self1 evs1 u.
    destruct (negb (bool_decide (is_Some (dmc self))) && negb (_use_fallback self)).
    - destruct (w (t_device t)) as [h|e] eqn:Hwd.
      + intros [= <- _ _] h' [= <-]. by apply Hw.
      + destruct (isinstance e ImportError); [by intros [= <- _ _]; apply Hself|].
        destruct (init_recoverable e); [by intros [= <- _ _]; apply Hself|].
        discriminate.
    - intros [= <- _ _]. exact Hself. }
  destruct (DMC_probe w self (t_device t)) as [[self1 evs1] [u|e]]; [|discriminate].
  specialize (Hprobe self1 evs1 u eq_refl).
  destruct (_use_fallback self1).
  - intros [= _ _ H]. unfold DMC_fallback in H.
    destruct (_fallback_extractor self1); [|discriminate].
    by eapply MC_run_valid.
  - intros [= _ _ H]. by eapply DMC_primary_valid.
Qed.

(** X4: the extractors keep a mesh well formed: when the marching-cubes kernel
    and the backend only return meshes whose face indices point at existing
    vertices, so does every mesh the batch driver builds for an item, through
    the Classic-MC extractor and through the DMC extractor on either path
    (the remapping and centring keep the number of vertices, the reversal
    keeps the indices). *)
Theorem extracted_mesh_valid (w : env) (t : tensor) (kw : kwargs) :
  (forall l, valid_kernel (fun g => marching_cubes g l)) ->
  (forall (self self' : MCSurfaceExtractor) evs m,
     try_body w self t kw = (self', evs, Ok m) ->
     valid_mesh (mesh_v m) (mesh_f m))
  /\ (forall (self self' : DMCSurfaceExtractor) evs m,
        (forall h, dmc self = Some h -> valid_kernel h) ->
        (forall h, w (t_device t) = Ok h -> valid_kernel h) ->
        try_body w self t kw = (self', evs, Ok m) ->
        valid_mesh (mesh_v m) (mesh_f m)).
Proof.
  intros Hmc. split.
  - intros self self' evs m. unfold try_body, run, MC_class.
    intros [= _ _ H].
    apply bind_Ok in H as (ret & Hrun & H).
    apply bind_Ok in H as ([vs fs] & Hun & H). injection H as <-.
    destruct ret as [vs' fs'|c]; [|discriminate]. injection Hun as -> ->.
    cbn. apply (valid_mesh_length vs); [by rewrite length_map|].
    by eapply MC_run_valid.
  - intros self self' evs m Hself Hw. unfold try_body, run, DMC_class.
    destruct (DMC_run w self t kw) as [[self1 evs1] r1] eqn:Hrun.
    intros [= _ _ H].
    apply bind_Ok in H as (ret & -> & H).
    apply bind_Ok in H as ([vs fs] & Hun & H). injection H as <-.
    destruct ret as [vs' fs'|c]; [|discriminate]. injection Hun as -> ->.
    cbn. apply (valid_mesh_length vs); [by rewrite length_map|].
    by eapply DMC_run_valid.
Qed.

End Validity.

(** ** More on the DMC extractor *)

Lemma probes_app (evs evs' : list event) :
  probes (evs ++ evs') = (probes evs + probes evs')%nat.
Proof. unfold probes. by rewrite List.filter_app, length_app. Qed.

Section MoreDMC.
Context `{K : Kernels}.

(** [MCSurfaceExtractor.run] without one of its keywords. *)
Lemma MC_run_missing (kw : kwargs) :
  kw !! "mc_level" = None \/ kw !! "bounds" = None
  \/ kw !! "octree_resolution" = None ->
  exists e, exn_cls e = TypeError /\ forall t, MC_run t kw = Raise e.
Proof.
  intros Hmiss. unfold MC_run, keyword_only. cbn [check_positional].
  assert (Hraise : forall c msg,
    exists e, exn_cls e = c /\ forall t : tensor, @raise pyret c msg = Raise e).
  { intros c msg. by exists (Exn c msg). }
  destruct (kw !! "self"); [apply (Hraise TypeError)|].
  destruct (kw !! "grid_logit"); [apply (Hraise TypeError)|]. cbn [mbind result_bind].
  destruct (kw !! "mc_level"); [|apply (Hraise TypeError)]. cbn [mbind result_bind].
  destruct (kw !! "bounds"); [|apply (Hraise TypeError)]. cbn [mbind result_bind].
  destruct (kw !! "octree_resolution"); [|apply (Hraise TypeError)].
  destruct Hmiss as [?|[?|?]]; discriminate.
Qed.

(** X5: once a DMC instance has fallen back, a call that carries
    octree_resolution but not mc_level or not bounds raises TypeError (from the
    Classic-MC signature), the instance unchanged: the keywords the DMC
    signature does not name are required on the fallback path. *)
Theorem dmc_fallback_requires_mc_keywords (w : env) (self : DMCSurfaceExtractor)
    (t : tensor) (kw : kwargs) (r : pyval) :
  settled self -> _use_fallback self = true -> binds_octree kw r ->
  kw !! "mc_level" = None \/ kw !! "bounds" = None ->
  exists e, exn_cls e = TypeError /\ DMC_run w self t kw = (self, [], Raise e).
Proof.
  intros Hset Hf Hb Hmiss.
  rewrite (DMC_run_settled w self t kw r Hb Hset), Hf.
  destruct Hset as [[_ Hc]|[_ [x Hx]]]; [congruence|].
  unfold DMC_fallback. rewrite Hx.
  destruct Hb as (_ & _ & Hr). rewrite insert_delete_id by done.
  destruct (MC_run_missing kw) as (e & He & Hrun); [tauto|].
  exists e. by rewrite Hrun.
Qed.

Lemma DMC_run_fresh (w : env) (self : DMCSurfaceExtractor) (t : tensor)
    (kw : kwargs) (r : pyval) :
  binds_octree kw r -> dmc self = None -> _use_fallback self = false ->
  DMC_run w self t kw
  = match w (t_device t) with
    | Ok h => (set_dmc self h, [EvProbe (t_device t)],
               DMC_primary (set_dmc self h) t r)
    | Raise e =>
        if isinstance e ImportError then
          (set_fallback self,
           [EvProbe (t_device t); EvWarn UserWarning import_warning],
           MC_run t kw)
        else if init_recoverable e then
          (set_fallback self,
           [EvProbe (t_device t); EvWarn UserWarning (init_warning e);
            EvLogDebug ("diso initialization error: " ++ exn_msg e)%string],
           MC_run t kw)
        else (self, [EvProbe (t_device t)], Raise e)
    end.
Proof.
  intros (Hs & Hg & Hr) Hd Hf. unfold DMC_run.
  rewrite check_positional_run by done.
  unfold keyword_only. cbn [mbind result_bind]. rewrite Hr.
  rewrite DMC_probe_fresh by done.
  assert (Hkw : <["octree_resolution" := r]> (delete "octree_resolution" kw) = kw)
    by (by apply insert_delete_id).
  destruct (w (t_device t)) as [h|e].
  - cbn. by rewrite Hf.
  - destruct (isinstance e ImportError).
    { cbn. unfold DMC_fallback. cbn. by rewrite Hkw. }
    destruct (init_recoverable e); [|done].
    cbn. unfold DMC_fallback. cbn. by rewrite Hkw.
Qed.

Lemma DMC_run_unclassified (w : env) (self : DMCSurfaceExtractor) (t : tensor)
    (kw : kwargs) (r : pyval) (e : exn) :
  binds_octree kw r -> dmc self = None -> _use_fallback self = false ->
  w (t_device t) = Raise e -> unclassified e ->
  DMC_run w self t kw = (self, [EvProbe (t_device t)], Raise e).
Proof.
  intros Hb Hd Hf Hw [Hi Hr].
  by rewrite (DMC_run_fresh w self t kw r Hb Hd Hf), Hw, Hi, Hr.
Qed.

(** X7: a probe that fails with an exception neither [except] clause catches
    settles nothing: as long as every call's probe fails that way, the
    instance stays as it was, every call probes again (as many probes as
    calls) and raises that call's exception. *)
Theorem dmc_unsettled_probes_again (self : DMCSurfaceExtractor)
    (calls : list (env * tensor * kwargs)) :
  dmc self = None -> _use_fallback self = false ->
  Forall (fun c => (exists r, binds_octree c.2 r)
                   /\ exists e, c.1.1 (t_device c.1.2) = Raise e /\ unclassified e)
         calls ->
  exists evs results,
    DMC_calls self calls = (self, evs, results)
    /\ probes evs = length calls
    /\ length results = length calls
    /\ forall i c, calls !! i = Some c ->
         exists e, c.1.1 (t_device c.1.2) = Raise e /\ results !! i = Some (Raise e).
Proof.
  intros Hd Hf. induction 1 as [|[[w t] kw] calls ([r Hb] & e & Hw & Hu) _ IH].
  - exists [], []. repeat split. intros i c Hi. discriminate.
  - destruct IH as (evs & results & Hcalls & Hp & Hlen & Hat).
    cbn [DMC_calls]. cbn in Hb, Hw.
    rewrite (DMC_run_unclassified w self t kw r e) by done.
    rewrite Hcalls. do 2 eexists. split; [reflexivity|].
    split; [cbn; unfold probes in Hp |- *; cbn; by rewrite Hp|].
    split; [cbn; by rewrite Hlen|].
    intros [|i] c Hi.
    + injection Hi as <-. exists e. done.
    + exact (Hat i c Hi).
Qed.

Lemma DMC_try_body_settled (w : env) (self : DMCSurfaceExtractor) (t : tensor)
    (kw : kwargs) :
  settled self ->
  exists r, try_body w self t kw = (self, [], r).
Proof.
  intros Hset. unfold try_body, run, DMC_class.
  rewrite DMC_run_settled_path by done. by eexists.
Qed.

Lemma DMC_call_loop_settled (world : nat -> env) (d : device) (kw : kwargs)
    (self : DMCSurfaceExtractor) (items : list grid) :
  settled self ->
  forall i outputs,
  exists evs out,
    call_loop world d kw i items self outputs = (self, evs, out)
    /\ probes evs = 0%nat.
Proof.
  intros Hset. induction items as [|g rest IH]; intros i outputs.
  - by exists [], (Ok outputs).
  - cbn [call_loop].
    destruct (DMC_try_body_settled (world i) self (Tensor d g) kw Hset) as [r ->].
    destruct r as [m|e].
    + destruct (IH (S i) (outputs ++ [Some m])) as (evs & out & -> & Hp).
      by exists evs, out.
    + destruct (isinstance e Exception).
      * destruct (IH (S i) (outputs ++ [None])) as (evs & out & -> & Hp).
        exists (EvTraceback e :: evs), out. split; [done|].
        unfold probes in *. cbn. exact Hp.
      * by exists [], (Raise e).
Qed.

(** X8: a batch call on a DMC instance that has not chosen yet, with keywords
    that bind and a first probe that succeeds or fails recoverably, probes
    exactly once for the whole non-empty batch and leaves the instance
    settled, whatever the items do. *)
Theorem dmc_batch_probes_once (world : nat -> env) (self : DMCSurfaceExtractor)
    (grid_logits : batch) (kw : kwargs) (r : pyval) :
  dmc self = None -> _use_fallback self = false -> binds_octree kw r ->
  b_items grid_logits <> [] ->
  classified (world 0%nat (b_device grid_logits)) ->
  exists self' evs out,
    __call__ world self grid_logits kw = (self', evs, out)
    /\ settled self' /\ probes evs = 1%nat.
Proof.
  intros Hd Hf Hb Hne Hcl. unfold __call__.
  destruct (b_items grid_logits) as [|g rest]; [done|]. clear Hne.
  cbn [call_loop]. unfold try_body at 1, run, DMC_class.
  rewrite (DMC_run_fresh _ self _ kw r Hb Hd Hf). cbn [t_device].
  set (d := b_device grid_logits) in *.
  assert (Hgo : forall self1 evs1 (r1 : result pyret),
    settled self1 -> probes evs1 = 1%nat ->
    exists self' evs out,
      (let '(self2, evs2, r2) :=
         (self1, evs1,
          ret ← r1; '(vertices, faces) ← unpack2 ret;
          Ok (MkLatent2MeshOutput (map (vmap to_float32) vertices) faces)) in
       match r2 with
       | Ok m =>
           let '(self3, evs', out) :=
             call_loop world d kw 1 rest self2 ([] ++ [Some m]) in
           (self3, evs2 ++ evs', out)
       | Raise e =>
           if isinstance e Exception
           then let '(self3, evs', out) :=
                  call_loop world d kw 1 rest self2 ([] ++ [None]) in
                (self3, evs2 ++ EvTraceback e :: evs', out)
           else (self2, evs2, Raise e)
       end) = (self', evs, out)
      /\ settled self' /\ probes evs = 1%nat).
  { intros self1 evs1 r1 Hset Hp. cbv zeta.
    destruct (ret ← r1; '(vertices, faces) ← unpack2 ret;
              Ok (MkLatent2MeshOutput (map (vmap to_float32) vertices) faces))
      as [m|e].
    - destruct (DMC_call_loop_settled world d kw self1 rest Hset 1%nat ([] ++ [Some m]))
        as (evs & out & -> & Hp').
      do 3 eexists. split; [reflexivity|]. split; [done|].
      by rewrite probes_app, Hp, Hp'.
    - destruct (isinstance e Exception).
      + destruct (DMC_call_loop_settled world d kw self1 rest Hset 1%nat ([] ++ [None]))
          as (evs & out & -> & Hp').
        do 3 eexists. split; [reflexivity|]. split; [done|].
        rewrite probes_app, Hp. unfold probes in *. cbn. by rewrite Hp'.
      + do 3 eexists. split; [reflexivity|]. done. }
  unfold classified in Hcl.
  destruct (world 0%nat d) as [h|e].
  - apply Hgo; [|done]. left. split; [by eexists|done].
  - destruct (isinstance e ImportError).
    { apply Hgo; [|done]. right. split; [done|by eexists]. }
    cbn in Hcl. rewrite Hcl.
    apply Hgo; [|done]. right. split; [done|by eexists].
Qed.

End MoreDMC.

(** ** Bounds of other shapes *)

(** X9: the bounds resolver reads the first six entries of a sequence only:
    a longer sequence gives the result of its first six entries. *)
Theorem box_stat_ignores_tail (l : list Qc) (r : pyval) :
  (6 <= length l)%nat ->
  _compute_box_stat (VSeq l) r = _compute_box_stat (VSeq (take 6 l)) r.
Proof.
  intros Hlen.
  destruct l as [|a [|b [|c [|d [|e [|f l]]]]]]; cbn in Hlen; try lia.
  reflexivity.
Qed.

(** X10: which sequence lengths the bounds resolver accepts (with an int
    resolution): lengths 0, 1, 4 and 6 or more give a result (bbox_min the
    first three entries; bbox_size of length 3 from 4 entries on, empty below),
    lengths 2, 3 and 5 raise ValueError from the subtraction; a 4-entry
    sequence (x0,y0,z0,m) is broadcast to bbox_size = (m-x0, m-y0, m-z0). *)
Theorem box_stat_sequence_lengths (l : list Qc) (n : Z) :
  ((length l = 0 \/ length l = 1 \/ length l = 4 \/ 6 <= length l)%nat ->
   exists lo size,
     _compute_box_stat (VSeq l) (VInt n) = Ok ([n + 1; n + 1; n + 1]%Z, lo, size)
     /\ lo = take 3 l
     /\ ((4 <= length l)%nat -> length size = 3%nat)
     /\ ((length l <= 1)%nat -> size = []))
  /\ ((length l = 2 \/ length l = 3 \/ length l = 5)%nat ->
      exists msg, _compute_box_stat (VSeq l) (VInt n) = raise ValueError msg)
  /\ (forall x0 y0 z0 m,
        _compute_box_stat (VSeq [x0; y0; z0; m]) (VInt n)
        = Ok ([n + 1; n + 1; n + 1]%Z, [x0; y0; z0], [m - x0; m - y0; m - z0])).
Proof.
  split; [|split].
  - intros Hlen.
    destruct l as [|a [|b [|c [|d [|e [|f l]]]]]]; cbn in Hlen; try lia;
      do 2 eexists; (split; [reflexivity|]); (split; [reflexivity|]);
      split; intros Hl; cbn in Hl |- *; try reflexivity; lia.
  - intros Hlen.
    destruct l as [|a [|b [|c [|d [|e [|f l]]]]]]; cbn in Hlen; try lia;
      eexists; reflexivity.
  - reflexivity.
Qed.

Section MoreDriver.
Context `{K : Kernels}.

Lemma call_loop_all_fail {S : Type} `{E : !Extractor S} (world : nat -> env)
    (d : device) (kw : kwargs) (self : S) (e : exn) (items : list grid) :
  isinstance e Exception = true ->
  (forall w t, try_body w self t kw = (self, [], Raise e)) ->
  forall i outputs,
  call_loop world d kw i items self outputs
  = (self, replicate (length items) (EvTraceback e),
     Ok (outputs ++ replicate (length items) None)).
Proof.
  intros He Hall. induction items as [|g rest IH]; intros i outputs.
  - cbn. by rewrite app_nil_r.
  - cbn [call_loop]. rewrite Hall, He, IH. cbn. by rewrite <- app_assoc.
Qed.

End MoreDriver.

Section MoreDriver2.
Context `{K : Kernels}.

(** X11: with a sequence for bounds, the Classic-MC [run] returns a mesh
    exactly for 4 entries or at least 6; any other length raises ValueError
    (in the resolver or when the empty bbox_size meets the vertices). *)
Theorem mc_bounds_sequence_length (t : tensor) (kw : kwargs) (level : pyval)
    (l : list Qc) (n : Z) (raw : list vec3) (faces : list face) :
  kw !! "self" = None -> kw !! "grid_logit" = None ->
  kw !! "mc_level" = Some level -> kw !! "bounds" = Some (VSeq l) ->
  kw !! "octree_resolution" = Some (VInt n) ->
  marching_cubes (t_data t) level = Ok (raw, faces) ->
  ((length l = 4 \/ 6 <= length l)%nat ->
   exists vertices, MC_run t kw = Ok (RTuple2 vertices faces)
                    /\ length vertices = length raw)
  /\ ((length l < 6)%nat -> length l <> 4%nat ->
      exists msg, MC_run t kw = raise ValueError msg).
Proof.
  intros Hs Hg Hl Hb Hr Hmc.
  assert (Hrun : MC_run t kw
    = ('(grid_size, bbox_min, bbox_size) ← _compute_box_stat (VSeq l) (VInt n);
       grid_size ← as_row3 (map Z2Qc grid_size);
       let vertices := map (fun v => vdiv v grid_size) raw in
       bbox_size ← as_row3 bbox_size;
       let vertices := map (fun v => vmul v bbox_size) vertices in
       bbox_min ← as_row3 bbox_min;
       let vertices := map (fun v => vadd v bbox_min) vertices in
       Ok (RTuple2 vertices faces))).
  { unfold MC_run, keyword_only. rewrite check_positional_run by done.
    cbn [mbind result_bind]. rewrite Hl. cbn [mbind result_bind].
    rewrite Hb. cbn [mbind result_bind]. rewrite Hr. cbn [mbind result_bind].
    by rewrite Hmc. }
  rewrite Hrun. clear Hrun. split.
  - intros Hlen.
    destruct l as [|a [|b [|c [|d [|e [|f l]]]]]]; cbn in Hlen; try lia;
      (eexists; split; [reflexivity|]; by rewrite !length_map).
  - intros Hlen Hne.
    destruct l as [|a [|b [|c [|d [|e [|f l]]]]]]; cbn in Hlen, Hne; try lia;
      eexists; reflexivity.
Qed.

(** X12: a batch call on the Classic-MC extractor without mc_level, bounds or
    octree_resolution does not raise: every item fails with the same
    TypeError, whose traceback is printed once per item, and the result is N
    None markers. *)
Theorem mc_missing_keyword_fails_every_item (world : nat -> env)
    (self : MCSurfaceExtractor) (grid_logits : batch) (kw : kwargs) :
  kw !! "mc_level" = None \/ kw !! "bounds" = None
  \/ kw !! "octree_resolution" = None ->
  exists e,
    exn_cls e = TypeError
    /\ __call__ world self grid_logits kw
       = (self, replicate (length (b_items grid_logits)) (EvTraceback e),
          Ok (replicate (length (b_items grid_logits)) None)).
Proof.
  intros Hmiss. destruct (MC_run_missing kw Hmiss) as (e & He & Hrun).
  exists e. split; [done|]. unfold __call__.
  rewrite (call_loop_all_fail world _ kw self e).
  - reflexivity.
  - unfold isinstance. by rewrite He.
  - intros w t. unfold try_body, run, MC_class. by rewrite Hrun.
Qed.

(** X13: when the backend returns no vertex, the DMC [run] raises (the min
    reduction of [center_vertices] over an empty array) instead of returning
    an empty mesh, the instance unchanged; the exception derives from
    Exception, so the batch driver turns the item into a None marker. *)
Theorem dmc_empty_backend_output (w : env) (self : DMCSurfaceExtractor) (t : tensor)
    (kw : kwargs) (r : pyval) (h : handle) (sdf : grid) (raw_faces : list face) :
  binds_octree kw r ->
  dmc self = Some h -> _use_fallback self = false ->
  neg_div (t_data t) r = Ok sdf ->
  h (map (map (map to_float32)) sdf) = Ok ([], raw_faces) ->
  exists e,
    DMC_run w self t kw = (self, [], Raise e)
    /\ isinstance e Exception = true
    /\ try_body w self t kw = (self, [], Raise e)
    /\ __call__ (fun _ => w) self (Batch (t_device t) [t_data t]) kw
       = (self, [EvTraceback e], Ok [None]).
Proof.
  intros Hb Hd Hf Hn Hh.
  assert (Hrun : DMC_run w self t kw
    = (self, [], raise IndexError "min(): Expected reduction dim 0 to have non-zero size.")).
  { rewrite (DMC_run_settled w self t kw r Hb) by (left; by rewrite Hd).
    rewrite Hf. unfold DMC_primary. rewrite Hn. cbn [mbind result_bind].
    by rewrite Hd, Hh. }
  assert (Htry : try_body w self t kw
    = (self, [], raise IndexError "min(): Expected reduction dim 0 to have non-zero size.")).
  { unfold try_body, run, DMC_class. by rewrite Hrun. }
  eexists. split; [exact Hrun|]. split; [done|]. split; [exact Htry|].
  unfold __call__. cbn [call_loop b_items b_device].
  destruct t as [d g]. cbn [t_device t_data] in *. by rewrite Htry.
Qed.

Lemma DMC_run_instance_ok (w : env) (self : DMCSurfaceExtractor) (t : tensor)
    (kw : kwargs) :
  instance_ok self -> instance_ok (DMC_run w self t kw).1.1.
Proof.
  intros Hok. unfold DMC_run.
  destruct (_ ← check_positional ["self"; "grid_logit"] kw;
            keyword_only "octree_resolution" kw) as [r|e]; [|done].
  assert (Hp : instance_ok (DMC_probe w self (t_device t)).1.1).
  { destruct Hok as [(Hd & Hf & Hx)|[(Hd & Hf & Hx)|(Hd & Hf & Hx)]].
    - rewrite DMC_probe_fresh by done.
      destruct (w (t_device t)) as [h|e].
      + right; left. cbn. rewrite Hf, Hx. split; [by eexists|done].
      + destruct (isinstance e ImportError).
        { right; right. cbn. rewrite Hd. split; [done|]. split; [done|by eexists]. }
        destruct (init_recoverable e).
        { right; right. cbn. rewrite Hd. split; [done|]. split; [done|by eexists]. }
        left. done.
    - rewrite DMC_probe_settled by (by left). right; left. done.
    - rewrite DMC_probe_settled by (by right). right; right. done. }
  destruct (DMC_probe w self (t_device t)) as [[self1 evs1] [u|e]]; cbn in Hp |- *;
    [|done].
  by destruct (_use_fallback self1).
Qed.

(** X14: whatever calls are made on a new DMC instance, in whatever
    surroundings and with whatever keywords, the instance is always in one of
    three shapes: fresh (no handle, no flag), holding a backend handle
    without the flag, or fallen back with the Classic-MC extractor in place
    and no handle.  It never holds a handle together with the flag. *)
Theorem dmc_instance_invariant (calls : list (env * tensor * kwargs)) :
  instance_ok (DMC_calls DMC_init calls).1.1.
Proof.
  assert (Hgen : forall self, instance_ok self -> instance_ok (DMC_calls self calls).1.1).
  { induction calls as [|[[w t] kw] calls IH]; intros self Hok; [done|].
    cbn [DMC_calls].
    pose proof (DMC_run_instance_ok w self t kw Hok) as H1.
    destruct (DMC_run w self t kw) as [[self1 evs1] r1]. cbn in H1.
    specialize (IH self1 H1).
    destruct (DMC_calls self1 calls) as [[self2 evs2] rs]. exact IH. }
  apply Hgen. left. done.
Qed.

End MoreDriver2.

(** ** A float resolution *)

Lemma Z2Qc_le (r : Z) (q : Qc) :
  Z2Qc r <= q <-> (r * Zpos (Qden (this q)) <= Qnum (this q))%Z.
Proof.
  unfold Z2Qc, Qcle. cbn [this Q2Qc]. rewrite Qred_correct.
  unfold Qle, inject_Z. cbn. by rewrite Z.mul_1_r.
Qed.

Lemma Z2Qc_gt (r : Z) (q : Qc) :
  q < Z2Qc r <-> (Qnum (this q) < r * Zpos (Qden (this q)))%Z.
Proof.
  unfold Z2Qc, Qclt. cbn [this Q2Qc]. rewrite Qred_correct.
  unfold Qlt, inject_Z. cbn. by rewrite Z.mul_1_r.
Qed.

(** X15: a float octree_resolution is truncated by [int()]: for a resolution
    q >= 0 the grid size g on each axis is the integer with g - 1 <= q < g. *)
Theorem box_stat_float_resolution (b q : Qc) :
  0 <= q ->
  exists g,
    _compute_box_stat (VFloat b) (VFloat q)
    = Ok ([g; g; g], [- b; - b; - b], [b - - b; b - - b; b - - b])
    /\ Z2Qc (g - 1) <= q /\ q < Z2Qc g.
Proof.
  intros Hq.
  assert (Hnum : (0 <= Qnum (this q))%Z).
  { change 0 with (Z2Qc 0) in Hq. apply Z2Qc_le in Hq. lia. }
  set (num := Qnum (this q)) in *. set (den := Zpos (Qden (this q))).
  exists (Z.quot num den + 1)%Z. split; [reflexivity|].
  rewrite Z.quot_div_nonneg by (subst den; lia).
  replace (num / den + 1 - 1)%Z with (num / den)%Z by lia.
  split.
  - apply Z2Qc_le. fold num den.
    pose proof (Z.mul_div_le num den ltac:(subst den; lia)). lia.
  - apply Z2Qc_gt. fold num den.
    pose proof (Z.mul_succ_div_gt num den ltac:(subst den; lia)). lia.
Qed.

(** * Properties of the validation scripts *)

Section ScriptProperties.
Import Script.
Local Open Scope Z_scope.

(** ** Literal and pattern search *)

Lemma starts_with_spec (needle s : text) :
  starts_with needle s = true <-> exists post, s = needle ++ post.
Proof.
  revert s. induction needle as [|a needle IH]; intros s; cbn.
  - split; [by exists s|done].
  - destruct s as [|b s]; [split; [done|by intros [? ?]]|].
    rewrite andb_true_iff, N.eqb_eq, IH. split.
    + intros [-> [post ->]]. by exists post.
    + intros [post [= -> ->]]. split; [done|by exists post].
Qed.

Lemma contains_spec (needle s : text) :
  contains needle s = true <-> exists pre post, s = pre ++ needle ++ post.
Proof.
  induction s as [|c s IH]; cbn [contains]; rewrite orb_true_iff, starts_with_spec.
  - split.
    + intros [[post H]|?]; [|done]. by exists [], post.
    + intros (pre & post & H). left.
      destruct pre; [by exists post|discriminate].
  - rewrite IH. split.
    + intros [[post H]|(pre & post & ->)]; [by exists [], post|].
      by exists (c :: pre), post.
    + intros (pre & post & H). destruct pre as [|c' pre].
      * left. by exists post.
      * right. injection H as -> ->. by exists pre, post.
Qed.

Lemma strip_prefix_spec (needle s rest : text) :
  strip_prefix needle s = Some rest <-> s = needle ++ rest.
Proof.
  revert s. induction needle as [|a needle IH]; intros s; cbn.
  - split; [by intros [= ->]|by intros ->].
  - destruct s as [|b s]; [split; done|].
    destruct (N.eqb_spec a b) as [->|Hne].
    + rewrite IH. split; [by intros ->|by intros [= ->]].
    + split; [done|]. intros [= -> ->]. done.
Qed.

Lemma spaces_then_paren_spec (s : text) :
  spaces_then_paren s = true
  <-> exists ws post, s = ws ++ 40%N :: post /\ Forall (fun c => isspace c = true) ws.
Proof.
  induction s as [|c s IH]; cbn [spaces_then_paren].
  - split; [done|]. intros (ws & post & H & _). by destruct ws.
  - destruct (isspace c) eqn:Hc.
    + rewrite IH. split.
      * intros (ws & post & -> & Hws). exists (c :: ws), post. split; [done|].
        by constructor.
      * intros (ws & post & H & Hws). destruct ws as [|c' ws].
        -- injection H as -> ->. discriminate.
        -- injection H as -> ->. exists ws, post. split; [done|].
           by inversion Hws.
    + rewrite N.eqb_eq. split.
      * intros ->. exists [], s. by split.
      * intros (ws & post & H & Hws). destruct ws as [|c' ws].
        -- by injection H as -> ->.
        -- injection H as -> ->. inversion Hws; congruence.
Qed.

Lemma search_def_spec (name s : text) :
  search_def name s = true
  <-> exists pre ws post,
        s = pre ++ (cp "def " ++ name) ++ ws ++ 40%N :: post
        /\ Forall (fun c => isspace c = true) ws.
Proof.
  assert (Hhere : forall s,
    match strip_prefix (cp "def " ++ name) s with
    | Some rest => spaces_then_paren rest
    | None => false
    end = true
    <-> exists ws post, s = (cp "def " ++ name) ++ ws ++ 40%N :: post
                        /\ Forall (fun c => isspace c = true) ws).
  { intros s'. destruct (strip_prefix (cp "def " ++ name) s') as [rest|] eqn:Hs.
    - apply strip_prefix_spec in Hs as ->. rewrite spaces_then_paren_spec.
      split; intros (ws & post & H & Hws); exists ws, post; split; try done.
      + by rewrite H.
      + by apply app_inv_head in H.
    - split; [done|]. intros (ws & post & -> & _).
      assert (strip_prefix (cp "def " ++ name)
                ((cp "def " ++ name) ++ ws ++ 40%N :: post)
              = Some (ws ++ 40%N :: post)) by (by apply strip_prefix_spec).
      congruence. }
  induction s as [|c s IH]; cbn [search_def]; rewrite orb_true_iff, Hhere.
  - split.
    + intros [(ws & post & H & Hws)|?]; [|done]. by exists [], ws, post.
    + intros (pre & ws & post & H & Hws). left. destruct pre; [|discriminate].
      by exists ws, post.
  - rewrite IH. split.
    + intros [(ws & post & H & Hws)|(pre & ws & post & -> & Hws)].
      * by exists [], ws, post.
      * by exists (c :: pre), ws, post.
    + intros (pre & ws & post & H & Hws). destruct pre as [|c' pre].
      * left. by exists ws, post.
      * right. injection H as -> ->. by exists pre, ws, post.
Qed.

(** ** The checks *)

Lemma read_file_Some (w : workdir) (path src : text) :
  files w !! path = Some src -> read_file w path = ([], inr src).
Proof. unfold read_file. by intros ->. Qed.

Lemma read_file_None (w : workdir) (path : text) :
  files w !! path = None -> read_file w path = ([], inl (FileNotFoundError path)).
Proof. unfold read_file. by intros ->. Qed.

Lemma passed_all (results : list (text * bool)) :
  (length (filter (fun r => r.2 = true) results) =? length results)%nat
  = forallb snd results.
Proof.
  induction results as [|[name b] results IH]; [done|].
  destruct b; cbn [forallb snd andb].
  - rewrite filter_cons_True by done. cbn [length]. exact IH.
  - rewrite filter_cons_False by done. cbn [length].
    apply Nat.eqb_neq.
    pose proof (length_filter (fun r : text * bool => r.2 = true) results). lia.
Qed.

Lemma summary_result (title noun : text) (ready : list text)
    (results : list (text * bool)) :
  let passed := length (filter (fun r => r.2 = true) results) in
  summary title noun ready results
  = ([nl ++ str_repeat (cp "=") 60; title; str_repeat (cp "=") 60]
     ++ map status_line results
     ++ [str_repeat (cp "-") 60;
         cp "Total: " ++ str_nat passed ++ cp "/" ++ str_nat (length results)
         ++ cp " " ++ noun ++ cp "s passed"]
     ++ (if forallb snd results then ready
         else [nl ++ cross_mark ++ cp " " ++ str_nat (length results - passed)
               ++ cp " " ++ noun ++ cp "(s) failed"]),
     inr (if forallb snd results then 0 else 1)).
Proof.
  intros passed. subst passed. unfold summary.
  cbn [mbind io_bind print mret io_ret].
  rewrite passed_all.
  destruct (forallb snd results); cbn [mbind io_bind print mret io_ret];
    rewrite ?app_nil_r; cbn [app]; by rewrite <- ?app_assoc.
Qed.

Context `{P : Parser}.

Lemma check_file_exists_result (w : workdir) (path : text) :
  exists out, check_file_exists w path = (out, inr (path_exists w path)).
Proof. unfold check_file_exists. destruct (path_exists w path); by eexists. Qed.



Lemma check_function_exists_result (w : workdir) (path src name : text) :
  files w !! path = Some src ->
  exists out, check_function_exists w path name = (out, inr (search_def name src)).
Proof.
  intros Hsrc. unfold check_function_exists.
  rewrite (read_file_Some w path src Hsrc). cbn [mbind io_bind print].
  destruct (search_def name src); by eexists.
Qed.

Lemma check_class_exists_result (w : workdir) (path src name : text) :
  files w !! path = Some src ->
  exists out,
    check_class_exists w path name = (out, inr (contains (cp "class " ++ name) src)).
Proof.
  intros Hsrc. unfold check_class_exists.
  rewrite (read_file_Some w path src Hsrc). cbn [mbind io_bind print].
  destruct (contains (cp "class " ++ name) src); by eexists.
Qed.

Lemma check_docstrings_result (w : workdir) (path src : text) :
  files w !! path = Some src ->
  exists out, check_docstrings w path = (out, inr (parses src)).
Proof.
  intros Hsrc. unfold check_docstrings, parses.
  rewrite (read_file_Some w path src Hsrc). cbn [mbind io_bind print].
  destruct (ast_parse src) as [e|docs]; [by eexists|].
  cbn [mbind io_bind print].
  destruct (5 <=? length (filter (fun d => d = true) docs))%nat; by eexists.
Qed.


Lemma check_file_exists_missing (w : workdir) (path : text) :
  files w !! path = None ->
  check_file_exists w path = ([cross_mark ++ cp " Missing: " ++ path], inr false).
Proof.
  intros Hnone. unfold check_file_exists, path_exists. rewrite Hnone.
  by rewrite bool_decide_eq_false_2 by (by intros [? ?]).
Qed.

(** X19: the docstring check cannot fail on a file that parses: it returns
    True whatever the number of functions with a docstring (the threshold of
    5 only selects the message). *)
Theorem check_docstrings_lenient (w : workdir) (path src : text) (docs : list bool) :
  files w !! path = Some src -> ast_parse src = inr docs ->
  exists out, check_docstrings w path = (out, inr true).
Proof.
  intros Hsrc Hp. destruct (check_docstrings_result w path src Hsrc) as [out ->].
  exists out. unfold parses. by rewrite Hp.
Qed.

(** X20: the class check is a substring test: for an identifier [name] it
    returns True exactly when the text of the file contains "class " followed
    by [name] somewhere (a longer class name or a comment will do); on a
    missing file it raises FileNotFoundError. *)
Theorem check_class_exists_substring (w : workdir) (path name : text) :
  identifier name ->
  (forall src,
     files w !! path = Some src ->
     exists out b,
       check_class_exists w path name = (out, inr b)
       /\ (b = true <-> exists pre post, src = pre ++ (cp "class " ++ name) ++ post))
  /\ (files w !! path = None ->
      check_class_exists w path name = ([], inl (FileNotFoundError path))).
Proof.
  intros _. split.
  - intros src Hsrc. destruct (check_class_exists_result w path src name Hsrc) as [out ->].
    do 2 eexists. split; [reflexivity|]. apply contains_spec.
  - intros Hnone. unfold check_class_exists. by rewrite read_file_None.
Qed.

(** X21: the function check returns True, for an identifier [name], exactly
    when the text contains "def " and [name], then any number of whitespace
    characters, then an opening parenthesis; on a missing file it raises
    FileNotFoundError. *)
Theorem check_function_exists_pattern (w : workdir) (path name : text) :
  identifier name ->
  (forall src,
     files w !! path = Some src ->
     exists out b,
       check_function_exists w path name = (out, inr b)
       /\ (b = true
           <-> exists pre ws post,
                 src = pre ++ (cp "def " ++ name) ++ ws ++ 40%N :: post
                 /\ Forall (fun c => isspace c = true) ws))
  /\ (files w !! path = None ->
      check_function_exists w path name = ([], inl (FileNotFoundError path))).
Proof.
  intros _. split.
  - intros src Hsrc.
    destruct (check_function_exists_result w path src name Hsrc) as [out ->].
    do 2 eexists. split; [reflexivity|]. apply search_def_spec.
  - intros Hnone. unfold check_function_exists. by rewrite read_file_None.
Qed.


(** X18: the static validation [main] does not report a missing tree as a
    failed check: when the repository root is missing it raises
    FileNotFoundError from os.chdir, and when postprocessors.py is missing it
    prints the Missing line and then raises FileNotFoundError from the syntax
    check, before any summary. *)
Theorem static_main_crashes_on_missing_file (w : workdir) :
  (chdir_ok w = false ->
   exists out, static_main w = (out, inl (FileNotFoundError repo_root)))
  /\ (chdir_ok w = true -> files w !! postprocessors_file = None ->
      exists out,
        static_main w = (out, inl (FileNotFoundError postprocessors_file))
        /\ In (cross_mark ++ cp " Missing: " ++ postprocessors_file) out
        /\ last out = Some (nl ++ cp "Checking syntax of " ++ postprocessors_file
                            ++ cp "...")).
Proof.
  split.
  - intros Hcd. unfold static_main. rewrite Hcd. by eexists.
  - intros Hcd Hnone. unfold static_main. rewrite Hcd.
    rewrite (check_file_exists_missing w postprocessors_file Hnone).
    destruct (check_file_exists_result w (cp "OPTIMIZATION_REPORT.md")) as [o2 ->].
    unfold check_syntax. rewrite (read_file_None w _ Hnone).
    cbn [mbind io_bind print mret io_ret throw].
    eexists. split; [reflexivity|]. split.
    + cbn. right; right; right. by left.
    + rewrite app_nil_r, !app_assoc. apply last_snoc.
Qed.


(** X16: [main] of validate_optimizations prints, after what the four tests
    print, the summary header and one status line per test in order, then
    three more lines, and returns 0 exactly when all four tests returned
    True, 1 otherwise. *)
Theorem validate_main_exit_code (o1 o2 o3 o4 : list text) (r1 r2 r3 r4 : bool) :
  exists post,
    validate_main (o1, inr r1) (o2, inr r2) (o3, inr r3) (o4, inr r4)
    = ([str_repeat (cp "=") 60;
        cp "VALIDATION TESTS FOR POSTPROCESSOR OPTIMIZATIONS";
        str_repeat (cp "=") 60]
       ++ o1 ++ o2 ++ o3 ++ o4
       ++ [nl ++ str_repeat (cp "=") 60; cp "TEST SUMMARY"; str_repeat (cp "=") 60]
       ++ map status_line
            [(cp "Imports", r1); (cp "Reduce Face Trimesh", r2);
             (cp "Temp File Cleanup", r3); (cp "FaceReducer Fast Mode", r4)]
       ++ post,
       inr (if r1 && r2 && r3 && r4 then 0 else 1))
    /\ length post = 3%nat.
Proof.
  unfold validate_main. cbn [mbind io_bind print mret io_ret].
  rewrite summary_result. cbn [forallb snd].
  rewrite (andb_true_r r4), !andb_assoc.
  eexists. split; [reflexivity|].
  by destruct (r1 && r2 && r3 && r4).
Qed.

End ScriptProperties.

(** * Instances of the further properties on the sample data *)

Section MoreSamples.
#[local] Existing Instance sample_kernels.


Lemma sample_kernel_valid : forall l, valid_kernel (fun g => marching_cubes g l).
Proof.
  intros l g vs fs H. destruct g; cbn in H; [discriminate|].
  injection H as <- <-. repeat constructor; cbn; lia.
Defined.

Lemma mc_vertices_in_box_witness :
  exists vertices,
    MC_run sample_tensor sample_kwargs = Ok (RTuple2 vertices [[0; 1; 2]%Z])
    /\ length vertices = 3%nat
    /\ Forall (in_box (V3 (- qc 101 100) (- qc 101 100) (- qc 101 100))
                      (V3 (qc 101 100 - - qc 101 100) (qc 101 100 - - qc 101 100)
                          (qc 101 100 - - qc 101 100)))
              vertices.
Proof.
  apply (mc_vertices_in_box sample_tensor sample_kwargs (VFloat (qc 0 1))
           (VFloat (qc 101 100)) 1 [2; 2; 2]%Z
           (- qc 101 100) (- qc 101 100) (- qc 101 100)
           (qc 101 100 - - qc 101 100) (qc 101 100 - - qc 101 100)
           (qc 101 100 - - qc 101 100)
           [V3 (qc 0 1) (qc 0 1) (qc 0 1); V3 (qc 1 1) (qc 0 1) (qc 0 1);
            V3 (qc 1 1) (qc 1 1) (qc 1 1)] [[0; 1; 2]%Z]);
    try reflexivity; try lia.
  repeat constructor; cbn; vm_compute; discriminate.
Defined.

Lemma extracted_mesh_valid_witness :
  exists m,
    (try_body diso_missing MkMCSurfaceExtractor sample_tensor sample_kwargs).2 = Ok m
    /\ valid_mesh (mesh_v m) (mesh_f m).
Proof.
  eexists. split; [reflexivity|].
  eapply (proj1 (extracted_mesh_valid diso_missing sample_tensor sample_kwargs
                   sample_kernel_valid) MkMCSurfaceExtractor).
  reflexivity.
Defined.

Lemma dmc_fallback_requires_mc_keywords_witness :
  exists e,
    exn_cls e = TypeError
    /\ DMC_run diso_present fallback_instance sample_tensor dmc_only_kwargs
       = (fallback_instance, [], Raise e).
Proof.
  apply (dmc_fallback_requires_mc_keywords diso_present fallback_instance
           sample_tensor dmc_only_kwargs (VInt 1)).
  - right. split; [reflexivity|]. eexists. reflexivity.
  - reflexivity.
  - repeat split.
  - left. reflexivity.
Defined.

Lemma DMC_run_unbound_witness :
  exists msg,
    DMC_run diso_present DMC_init sample_tensor no_resolution_kwargs
    = (DMC_init, [], raise TypeError msg).
Proof.
  apply (DMC_run_unbound diso_present DMC_init sample_tensor no_resolution_kwargs).
  left. reflexivity.
Defined.

Lemma dmc_unsettled_probes_again_witness :
  exists evs results,
    DMC_calls DMC_init [(diso_os_error, sample_tensor, sample_kwargs);
                        (diso_os_error, sample_tensor, wide_kwargs)]
    = (DMC_init, evs, results)
    /\ probes evs = 2%nat.
Proof.
  destruct (dmc_unsettled_probes_again DMC_init
              [(diso_os_error, sample_tensor, sample_kwargs);
               (diso_os_error, sample_tensor, wide_kwargs)])
    as (evs & results & Hcalls & Hp & _).
  - reflexivity.
  - reflexivity.
  - repeat constructor; try (by exists (VInt 1)); eexists; split; try reflexivity;
      split; reflexivity.
  - exists evs, results. split; [exact Hcalls|exact Hp].
Defined.

Lemma dmc_batch_probes_once_witness :
  exists self' evs out,
    __call__ (fun _ => diso_missing) DMC_init mixed_batch sample_kwargs
    = (self', evs, out)
    /\ settled self' /\ probes evs = 1%nat.
Proof.
  apply (dmc_batch_probes_once (fun _ => diso_missing) DMC_init mixed_batch
           sample_kwargs (VInt 1)).
  - reflexivity.
  - reflexivity.
  - repeat split.
  - discriminate.
  - reflexivity.
Defined.

Lemma box_stat_ignores_tail_witness :
  _compute_box_stat (VSeq long_bounds) (VInt 1)
  = _compute_box_stat (VSeq (take 6 long_bounds)) (VInt 1).
Proof. apply (box_stat_ignores_tail long_bounds (VInt 1)). cbn. lia. Defined.

Lemma box_stat_sequence_lengths_witness :
  exists msg,
    _compute_box_stat (VSeq [qc (-1) 1; qc (-1) 1; qc (-1) 1]) (VInt 1)
    = raise ValueError msg.
Proof.
  apply (proj1 (proj2 (box_stat_sequence_lengths
                         [qc (-1) 1; qc (-1) 1; qc (-1) 1] 1))).
  right. left. reflexivity.
Defined.

Lemma mc_bounds_sequence_length_witness :
  exists vertices,
    MC_run sample_tensor short_bounds_kwargs = Ok (RTuple2 vertices [[0; 1; 2]%Z])
    /\ length vertices = 3%nat.
Proof.
  destruct (mc_bounds_sequence_length sample_tensor short_bounds_kwargs
              (VFloat (qc 0 1)) [qc (-1) 1; qc (-1) 1; qc (-1) 1; qc 1 1] 1
              [V3 (qc 0 1) (qc 0 1) (qc 0 1); V3 (qc 1 1) (qc 0 1) (qc 0 1);
               V3 (qc 1 1) (qc 1 1) (qc 1 1)] [[0; 1; 2]%Z])
    as [Hok _]; try reflexivity.
  apply Hok. left. reflexivity.
Defined.

Lemma mc_missing_keyword_fails_every_item_witness :
  exists e,
    exn_cls e = TypeError
    /\ __call__ (fun _ => diso_missing) MkMCSurfaceExtractor mixed_batch dmc_only_kwargs
       = (MkMCSurfaceExtractor, replicate 3 (EvTraceback e), Ok (replicate 3 None)).
Proof.
  apply (mc_missing_keyword_fails_every_item (fun _ => diso_missing)
           MkMCSurfaceExtractor mixed_batch dmc_only_kwargs).
  left. reflexivity.
Defined.

Lemma dmc_empty_backend_output_witness :
  exists e,
    DMC_run diso_present empty_instance sample_tensor sample_kwargs
    = (empty_instance, [], Raise e)
    /\ isinstance e Exception = true.
Proof.
  destruct (dmc_empty_backend_output diso_present empty_instance sample_tensor
              sample_kwargs (VInt 1) empty_dmc sample_sdf [])
    as (e & Hrun & He & _).
  - repeat split.
  - reflexivity.
  - reflexivity.
  - reflexivity.
  - reflexivity.
  - exists e. split; assumption.
Defined.

Lemma box_stat_float_resolution_witness :
  exists g,
    _compute_box_stat (VFloat (qc 1 1)) (VFloat (qc 65 2))
    = Ok ([g; g; g], [- qc 1 1; - qc 1 1; - qc 1 1],
          [qc 1 1 - - qc 1 1; qc 1 1 - - qc 1 1; qc 1 1 - - qc 1 1])
    /\ Z2Qc (g - 1) <= qc 65 2 /\ qc 65 2 < Z2Qc g.
Proof.
  apply (box_stat_float_resolution (qc 1 1) (qc 65 2)).
  vm_compute. discriminate.
Defined.

End MoreSamples.

Section ScriptSamples.
Import Script.
Local Open Scope Z_scope.
#[local] Existing Instance lenient_parser.


Lemma static_main_crashes_on_missing_file_witness :
  exists out,
    static_main empty_workdir = (out, inl (FileNotFoundError postprocessors_file)).
Proof.
  destruct (proj2 (static_main_crashes_on_missing_file empty_workdir))
    as (out & Hrun & _).
  - reflexivity.
  - reflexivity.
  - exists out. exact Hrun.
Defined.

Lemma check_docstrings_lenient_witness :
  exists out, check_docstrings sample_workdir postprocessors_file = (out, inr true).
Proof.
  apply (check_docstrings_lenient sample_workdir postprocessors_file sample_source []);
    reflexivity.
Defined.

Lemma check_class_exists_substring_witness :
  exists out,
    check_class_exists sample_workdir postprocessors_file (cp "FaceReducer")
    = (out, inr true).
Proof.
  destruct (proj1 (check_class_exists_substring sample_workdir postprocessors_file
                     (cp "FaceReducer") ltac:(repeat constructor))
              sample_source eq_refl) as (out & b & Hrun & Hiff).
  exists out. rewrite Hrun. do 2 f_equal. apply Hiff.
  eexists [], _. reflexivity.
Defined.

Lemma check_function_exists_pattern_witness :
  exists out,
    check_function_exists sample_workdir postprocessors_file (cp "reduce_face_trimesh")
    = (out, inr true).
Proof.
  destruct (proj1 (check_function_exists_pattern sample_workdir postprocessors_file
                     (cp "reduce_face_trimesh") ltac:(repeat constructor))
              sample_source eq_refl) as (out & b & Hrun & Hiff).
  exists out. rewrite Hrun. do 2 f_equal. apply Hiff.
  exists (cp "class FaceReducerV2: "), [32%N]. eexists.
  split; [reflexivity|]. repeat constructor.
Defined.

End ScriptSamples.
